(** * The action layer of the browser agent

    A shallow embedding of
    [chrome-extension/src/background/agent/actions/builder.ts]:
    the [Action] class ([call], [name], [getIndexArg]),
    [buildDynamicActionSchema], and the seventeen handlers that
    [ActionBuilder.buildDefaultActions] registers.

    Handlers are asynchronous TypeScript closures over an agent context.  They
    are modelled in a small exception-and-trace monad: a computation is run
    after the history of everything that happened so far and either returns a
    value or throws, and it yields the effects it performed itself (events
    emitted, log lines, calls made to the browser driver and to the extraction
    model).  The browser driver and the model are collaborators outside this
    file; they are records of functions of the history and of the arguments,
    so every theorem holds for every behaviour they can show.  An [await] that
    never resolves is outside the model: every collaborator call answers. *)

From Stdlib Require Import Ascii String ZArith.
From stdpp Require Import gmap strings list pretty.

Set Warnings "-register-all".
Local Open Scope Z_scope.

(** ** JavaScript values *)

(** The values that reach the action layer are JSON-like.  Numbers are the
    integer-valued ones (indices, tab ids, pixel amounts); fractional numbers
    and NaN are not represented.  An object is its list of own properties, in
    insertion order; a well-formed object has no repeated key and a lookup reads
    the first binding. *)
Inductive value : Type :=
| VUndefined
| VNull
| VBool (b : bool)
| VNum (n : Z)
| VStr (s : string)
| VObj (fields : list (string * value))
| VArr (items : list value).

(** [{}] *)
Definition empty_object : value := VObj [].

Fixpoint assoc {A : Type} (k : string) (l : list (string * A)) : option A :=
  match l with
  | [] => None
  | (k', a) :: l' => if String.eqb k k' then Some a else assoc k l'
  end.

(** [o.k] on a value that was already checked (or typed) to be an object: a
    missing property reads as [undefined]. *)
Definition get_prop (o : value) (k : string) : value :=
  match o with
  | VObj fields => default VUndefined (assoc k fields)
  | _ => VUndefined
  end.

(** [k in o] for an object value; arrays carry only their elements and
    [length]. *)
Definition has_prop (k : string) (o : value) : bool :=
  match o with
  | VObj fields => bool_decide (is_Some (assoc k fields))
  | VArr _ => String.eqb k "length"
  | _ => false
  end.

(** [typeof v === 'object'] ([null] and arrays included, as in JavaScript). *)
Definition typeof_object (v : value) : bool :=
  match v with
  | VNull | VObj _ | VArr _ => true
  | _ => false
  end.

(** Truthiness, as [if (v)], [v || w] and [!v] use it. *)
Definition truthy (v : value) : bool :=
  match v with
  | VUndefined | VNull => false
  | VBool b => b
  | VNum n => negb (Z.eqb n 0)
  | VStr s => negb (String.eqb s EmptyString)
  | VObj _ | VArr _ => true
  end.

(** [a || b] *)
Definition js_or (a b : value) : value := if truthy a then a else b.

(** [v === undefined || v === null], the test behind [??]. *)
Definition nullish (v : value) : bool :=
  match v with
  | VUndefined | VNull => true
  | _ => false
  end.

(** [v === undefined] *)
Definition is_undefined (v : value) : bool :=
  match v with
  | VUndefined => true
  | _ => false
  end.

Definition join (sep : string) (l : list string) : string :=
  match l with
  | [] => EmptyString
  | s :: l' => fold_left (fun acc x => acc +:+ sep +:+ x) l' s
  end.

(** [String(v)], which is also what a template literal applies to an
    interpolated value.  Integers print in decimal (the exponent notation that
    JavaScript switches to from 1e21 on is not modelled). *)
Fixpoint to_str (v : value) : string :=
  match v with
  | VUndefined => "undefined"
  | VNull => "null"
  | VBool true => "true"
  | VBool false => "false"
  | VNum n => pretty n
  | VStr s => s
  | VObj _ => "[object Object]"
  | VArr items =>
      join "," (map (fun x => if nullish x then EmptyString else to_str x) items)
  end.

(** *** JSON text of strings *)

Definition hex_digit (n : N) : ascii :=
  ascii_of_N (if (n <? 10)%N then 48 + n else 87 + n)%N.

(** One character of the body of [JSON.stringify(s)]. *)
Definition json_escape_char (c : ascii) : string :=
  let n := N_of_ascii c in
  if (n =? 34)%N then "\" +:+ String c EmptyString
  else if (n =? 92)%N then "\\"
  else if (n =? 8)%N then "\b"
  else if (n =? 12)%N then "\f"
  else if (n =? 10)%N then "\n"
  else if (n =? 13)%N then "\r"
  else if (n =? 9)%N then "\t"
  else if (n <? 32)%N then
    "\u00" +:+ String (hex_digit (n / 16)) (String (hex_digit (n mod 16)) EmptyString)
  else String c EmptyString.

Fixpoint json_escape (s : string) : string :=
  match s with
  | EmptyString => EmptyString
  | String c s' => json_escape_char c +:+ json_escape s'
  end.

(** [JSON.stringify(s)] for a string [s]. *)
Definition json_string (s : string) : string :=
  String (ascii_of_N 34) (json_escape s) +:+ String (ascii_of_N 34) EmptyString.

(** [JSON.stringify(o)] for a [Record<string, string>]. *)
Definition json_string_record (o : list (string * string)) : string :=
  "{" +:+ join "," (map (fun kv => json_string kv.1 +:+ ":" +:+ json_string kv.2) o) +:+ "}".

Definition ascii_lower (c : ascii) : ascii :=
  let n := N_of_ascii c in
  if ((65 <=? n) && (n <=? 90))%N then ascii_of_N (n + 32) else c.

(** [s.toLowerCase()].  Only the ASCII letters are mapped; no character outside
    ASCII lower-cases to a letter of ['select'], the one string the result is
    compared with. *)
Fixpoint toLowerCase (s : string) : string :=
  match s with
  | EmptyString => EmptyString
  | String c s' => String (ascii_lower c) (toLowerCase s')
  end.

(** ** Exceptions *)

(** [InvalidInputError] extends [Error]; [instanceof] tells them apart. *)
Inductive ErrorClass : Type := Error | InvalidInputError.

(** What a [throw] carries: an [Error] object (of some class, with its
    message), or any other value. *)
Inductive Thrown : Type :=
| ThrownError (cls : ErrorClass) (message : string)
| ThrownValue (v : value).

(** [error instanceof Error ? error.message : String(error)] *)
Definition error_text (e : Thrown) : string :=
  match e with
  | ThrownError _ message => message
  | ThrownValue v => to_str v
  end.

(** ** The collaborators' data *)

(** A page handle of the browser driver; the action layer reads its [tabId]. *)
Module Page.
Record t : Type := { tabId : Z }.
End Page.

(** An element of the selector map.  [textTillNextClickable] stands for the
    result of [getAllTextTillNextClickableElement(2)]. *)
Record DOMElementNode : Type := {
  tagName : option string;
  xpath : option string;
  attributes : list (string * string);
  textTillNextClickable : string
}.

(** The snapshot [page.getState()] returns. *)
Record PageState : Type := { selectorMap : gmap Z DOMElementNode }.

(** One entry of [page.getDropdownOptions(index)]. *)
Record DropdownOption : Type := {
  opt_index : Z;
  opt_text : string;
  opt_value : string
}.

(** The result of [page.getReadabilityContent()]. *)
Module ReadabilityResult.
Record t : Type := { content : string }.
End ReadabilityResult.

(** [state?.selectorMap.get(index)]: a missing snapshot and a key that is not a
    number of the map both give [undefined]. *)
Definition selectorMap_get (state : option PageState) (index : value)
  : option DOMElementNode :=
  match state, index with
  | Some st, VNum n => selectorMap st !! n
  | _, _ => None
  end.

(** ** Events and the trace of effects *)

(** Modelled from the spec: the enums [Actors] and [ExecutionState] of
    [../event/types] are not among the sources.  The action layer always emits
    as the navigator, in one of three phases. *)
Inductive Actors : Type := NAVIGATOR.

Inductive ExecutionState : Type := ACT_START | ACT_OK | ACT_FAIL.

Inductive LogLevel : Type := log_debug | log_info | log_error.

(** The calls the handlers make on the browser context, on a page and on the
    extraction model, with the arguments exactly as passed. *)
Inductive Call : Type :=
| CNavigateTo (url : value) (background : bool)
| CGetCurrentPage (background : bool)
| COpenTab (url : value) (background : bool)
| CCloseTab (id : value)
| CSwitchTab (id : value) (background : option bool)
| CGetAllTabIds
| CGoBack (p : Page.t)
| CGetState (p : Page.t)
| CIsFileUploader (p : Page.t) (node : DOMElementNode)
| CClickElementNode (p : Page.t) (useVision : bool) (node : DOMElementNode)
| CInputTextElementNode (p : Page.t) (useVision : bool) (node : DOMElementNode) (text : value)
| CScrollDown (p : Page.t) (amount : value)
| CScrollUp (p : Page.t) (amount : value)
| CSendKeys (p : Page.t) (keys : value)
| CScrollToText (p : Page.t) (text : value)
| CGetDropdownOptions (p : Page.t) (index : value)
| CSelectDropdownOption (p : Page.t) (index : value) (text : value)
| CGetReadabilityContent (p : Page.t)
| CExtractorInvoke (prompt : string).

Inductive Effect : Type :=
| Emitted (actor : Actors) (state : ExecutionState) (details : value)
| Logged (level : LogLevel) (msg : string)
| Called (c : Call).

Definition Trace : Type := list Effect.

(** What happened before a computation starts, most recent effect first. *)
Definition History : Type := list Effect.

(** ** The monad of handlers *)

(** A computation is run after a history and yields what it throws or returns,
    with the effects it performed itself, in the order it performed them. *)
Definition Outcome (A : Type) : Type := (Thrown + A) * Trace.

Definition M (A : Type) : Type := History -> Outcome A.

Definition returned {A : Type} (a : A) : Thrown + A := inr a.
Definition threw {A : Type} (e : Thrown) : Thrown + A := inl e.

(** The history once the effects [t] have been added to it. *)
Definition after (t : Trace) (h : History) : History := rev_append t h.

Definition ret {A : Type} (a : A) : M A := fun _ => (returned a, []).

Definition throw {A : Type} (e : Thrown) : M A := fun _ => (threw e, []).

Definition bind {A B : Type} (m : M A) (k : A -> M B) : M B :=
  fun h =>
    match m h with
    | (inl e, t1) => (inl e, t1)
    | (inr a, t1) =>
        match k a (after t1 h) with
        | (r, t2) => (r, t1 ++ t2)
        end
    end.

(** [try { body } catch (error) { handler }] *)
Definition try_catch {A : Type} (body : M A) (handler : Thrown -> M A) : M A :=
  fun h =>
    match body h with
    | (inr a, t1) => (inr a, t1)
    | (inl e, t1) =>
        match handler e (after t1 h) with
        | (r, t2) => (r, t1 ++ t2)
        end
    end.

(** A call to a collaborator: it is recorded, and the collaborator answers from
    the history. *)
Definition external {A : Type} (c : Call) (answer : History -> Thrown + A) : M A :=
  fun h => (answer h, [Called c]).

Definition perform (e : Effect) : M unit := fun _ => (returned tt, [e]).

#[global] Instance M_ret : MRet M := @ret.
#[global] Instance M_bind : MBind M := fun A B k m => bind m k.

(** The events among some effects, in order. *)
Definition events (t : Trace) : list (ExecutionState * value) :=
  omap (fun e => match e with Emitted _ st d => Some (st, d) | _ => None end) t.

Definition calls (t : Trace) : list Call :=
  omap (fun e => match e with Called c => Some c | _ => None end) t.

Definition is_terminal (st : ExecutionState) : bool :=
  match st with
  | ACT_START => false
  | ACT_OK | ACT_FAIL => true
  end.

(** ** The structural validator *)

(** The fragment of the [zod] library that the action layer relies on:
    strings, numbers, booleans, objects, and the [optional] and [nullable]
    wrappers, each schema with an optional description.  [safeParse] follows
    the library: an object schema checks every field of its shape, drops
    unknown keys, and collects the issues of all fields. *)
Module z.

Inductive ZodDef (T : Type) : Type :=
| ZodString
| ZodNumber
| ZodBoolean
| ZodObject (shape : list (string * T))
| ZodOptional (innerType : T)
| ZodNullable (innerType : T).
Arguments ZodString {T}.
Arguments ZodNumber {T}.
Arguments ZodBoolean {T}.
Arguments ZodObject {T} shape.
Arguments ZodOptional {T} innerType.
Arguments ZodNullable {T} innerType.

Inductive ZodType : Type :=
  Zod { description : option string; _def : ZodDef ZodType }.

Definition string : ZodType := Zod None ZodString.
Definition number : ZodType := Zod None ZodNumber.
Definition boolean : ZodType := Zod None ZodBoolean.
Definition object (shape : list (String.string * ZodType)) : ZodType :=
  Zod None (ZodObject shape).

(** [t.optional()] and [t.nullable()] wrap [t] and take over its
    description; [t.describe(d)] is [t] with the description replaced. *)
Definition optional (t : ZodType) : ZodType := Zod (description t) (ZodOptional t).
Definition nullable (t : ZodType) : ZodType := Zod (description t) (ZodNullable t).
Definition describe (d : String.string) (t : ZodType) : ZodType := Zod (Some d) (_def t).

(** [schema instanceof z.ZodObject] *)
Definition is_ZodObject (t : ZodType) : bool :=
  match _def t with
  | ZodObject _ => true
  | _ => false
  end.

(** [schema.shape || {}] (the shape of a schema that is no object is
    [undefined]). *)
Definition shape (t : ZodType) : list (String.string * ZodType) :=
  match _def t with
  | ZodObject sh => sh
  | _ => []
  end.

(** [o[k] = v] on a property list: an existing key keeps its place. *)
Fixpoint set_prop {A : Type} (k : String.string) (v : A) (o : list (String.string * A))
  : list (String.string * A) :=
  match o with
  | [] => [(k, v)]
  | (k', v') :: o' =>
      if String.eqb k k' then (k, v) :: o' else (k', v') :: set_prop k v o'
  end.

(** [{...o, ...aug}] *)
Definition spread {A : Type} (o aug : list (String.string * A)) : list (String.string * A) :=
  fold_left (fun acc kv => set_prop kv.1 kv.2 acc) aug o.

(** [schema.extend(aug)] and [schema.partial()], methods of object schemas;
    both keep the rest of the definition, and so the description. *)
Definition extend (t : ZodType) (aug : list (String.string * ZodType)) : ZodType :=
  Zod (description t) (ZodObject (spread (shape t) aug)).

(** The one property name that an assignment [o[k] = v] to a plain object
    does not define: it goes to the setter of [Object.prototype], which
    replaces the prototype of [o] and adds no property. *)
Definition proto_key : String.string := "__proto__".

(** [extend] copies the properties with a spread, which defines each of them,
    the key [__proto__] like any other.  [partial] fills a new shape by
    assignment, [newShape[key] = field.optional()], so a field of that name is
    lost: the new shape has no such key.  (What the replaced prototype does to
    the keys assigned after it is not modelled: the statements about [partial]
    exclude the key, and the one evaluation that has it has no other key.) *)
Definition partial (t : ZodType) : ZodType :=
  Zod (description t)
    (ZodObject
       (map (fun kv => (kv.1, optional kv.2))
          (List.filter (fun kv => negb (String.eqb kv.1 proto_key)) (shape t)))).

Record ZodIssue : Type := { path : list String.string; issue_message : String.string }.

Record ZodError : Type := { issues : list ZodIssue }.

(** [error.message]: a JSON rendering of the issue list (the library prints
    more fields per issue, and indents). *)
Definition message (e : ZodError) : String.string :=
  "[" +:+ join ","
    (map (fun i =>
            "{" +:+ json_string "path" +:+ ":[" +:+ join "," (map json_string (path i))
            +:+ "]," +:+ json_string "message" +:+ ":" +:+ json_string (issue_message i) +:+ "}")
         (issues e)) +:+ "]".

Inductive SafeParseReturn : Type :=
| success (data : value)
| failure (error : ZodError).

Definition type_name (v : value) : String.string :=
  match v with
  | VUndefined => "undefined"
  | VNull => "null"
  | VBool _ => "boolean"
  | VNum _ => "number"
  | VStr _ => "string"
  | VObj _ => "object"
  | VArr _ => "array"
  end.

Definition invalid_type (expected : String.string) (p : list String.string) (v : value)
  : list ZodIssue :=
  [ {| path := p;
       issue_message :=
         if is_undefined v then "Required"
         else "Expected " +:+ expected +:+ ", received " +:+ type_name v |} ].

Fixpoint parse (t : ZodType) (p : list String.string) (v : value) : list ZodIssue + value :=
  match _def t with
  | ZodString =>
      match v with VStr _ => inr v | _ => inl (invalid_type "string" p v) end
  | ZodNumber =>
      match v with VNum _ => inr v | _ => inl (invalid_type "number" p v) end
  | ZodBoolean =>
      match v with VBool _ => inr v | _ => inl (invalid_type "boolean" p v) end
  | ZodOptional inner =>
      match v with VUndefined => inr VUndefined | _ => parse inner p v end
  | ZodNullable inner =>
      match v with VNull => inr VNull | _ => parse inner p v end
  | ZodObject sh =>
      match v with
      | VObj fields =>
          let fix go (sh : list (String.string * ZodType))
            : list ZodIssue * list (String.string * value) :=
            match sh with
            | [] => ([], [])
            | (k, tk) :: sh' =>
                let (errs, out) := go sh' in
                let vk := default VUndefined (assoc k fields) in
                match parse tk (p ++ [k]) vk with
                | inl errs_k => (errs_k ++ errs, out)
                | inr d =>
                    if bool_decide (is_Some (assoc k fields))
                       || negb (is_undefined d)
                    then (errs, (k, d) :: out) else (errs, out)
                end
            end in
          match go sh with
          | ([], out) => inr (VObj out)
          | (errs, _) => inl errs
          end
      | _ => inl (invalid_type "object" p v)
      end
  end.

(** [schema.safeParse(input)] *)
Definition safeParse (t : ZodType) (input : value) : SafeParseReturn :=
  match parse t [] input with
  | inr data => success data
  | inl errs => failure {| issues := errs |}
  end.

Definition is_success (r : SafeParseReturn) : bool :=
  match r with
  | success _ => true
  | failure _ => false
  end.

(** [t.isOptional()] and [t.isNullable()], defined by the library as
    [safeParse(undefined).success] and [safeParse(null).success]. *)
Definition isOptional (t : ZodType) : bool := is_success (safeParse t VUndefined).
Definition isNullable (t : ZodType) : bool := is_success (safeParse t VNull).

End z.

(** ** Results *)

(** Modelled from the spec: the class [ActionResult] of
    [@src/background/agent/types] is not among the sources.  Its attributes are
    [isDone] (defaults to false), [extractedContent], [error] and
    [includeInMemory]; the constructor takes any subset of them. *)
Record ActionResult : Type := {
  isDone : bool;
  extractedContent : option value;
  error : option string;
  includeInMemory : bool
}.

(** One property of the object literal passed to [new ActionResult({...})]. *)
Inductive ActionResultParam : Type :=
| isDone_ (b : bool)
| extractedContent_ (v : value)
| error_ (msg : string)
| includeInMemory_ (b : bool).

Definition set_param (r : ActionResult) (p : ActionResultParam) : ActionResult :=
  match p with
  | isDone_ b =>
      {| isDone := b; extractedContent := extractedContent r;
         error := error r; includeInMemory := includeInMemory r |}
  | extractedContent_ v =>
      {| isDone := isDone r;
         extractedContent := if nullish v then None else Some v;
         error := error r; includeInMemory := includeInMemory r |}
  | error_ msg =>
      {| isDone := isDone r; extractedContent := extractedContent r;
         error := Some msg; includeInMemory := includeInMemory r |}
  | includeInMemory_ b =>
      {| isDone := isDone r; extractedContent := extractedContent r;
         error := error r; includeInMemory := b |}
  end.

(** [new ActionResult(params)]: a property that is left out, or whose value is
    [undefined] or [null], leaves the attribute unset. *)
Definition new_ActionResult (params : list ActionResultParam) : ActionResult :=
  fold_left set_param params
    {| isDone := false; extractedContent := None; error := None; includeInMemory := false |}.

(** ** Action *)

(** The descriptor type [ActionSchema] of [./schemas]. *)
Module ActionSchema.
Record t : Type := { name : string; description : string; schema : z.ZodType }.
End ActionSchema.

Module Action.

Record t : Type := {
  handler : value -> M ActionResult;
  schema : ActionSchema.t;
  hasIndex : bool
}.

(** The test [call] makes before it validates: the schema is
    [z.object({})]. *)
Definition isEmptySchema (schema : z.ZodType) : bool :=
  z.is_ZodObject schema && (length (z.shape schema) =? 0)%nat.

Definition call (this : t) (input : value) : M ActionResult :=
  let schema := ActionSchema.schema (schema this) in
  if isEmptySchema schema then
    handler this empty_object
  else
    match z.safeParse (ActionSchema.schema (Action.schema this)) input with
    | z.failure error =>
        let errorMessage := z.message error in
        throw (ThrownError InvalidInputError errorMessage)
    | z.success data => handler this data
    end.

Definition name (this : t) : string := ActionSchema.name (schema this).

(** [prompt()]: the description, then the fields of the schema's shape.  The
    ['type'] of a field is its description (a field without one prints
    [undefined]); a field is marked optional when its schema accepts
    [undefined]. *)
Definition prompt (this : t) : string :=
  let schemaShape := z.shape (ActionSchema.schema (schema this)) in
  let schemaProperties :=
    map (fun kv : string * z.ZodType =>
           "'" +:+ kv.1 +:+ "': {'type': '"
           +:+ default "undefined" (z.description kv.2) +:+ "', "
           +:+ (if z.isOptional kv.2 then "'optional': true" else "'required': true")
           +:+ "}")
        schemaShape in
  let schemaStr :=
    if (0 <? length schemaProperties)%nat
    then "{" +:+ name this +:+ ": {" +:+ join ", " schemaProperties +:+ "}}"
    else "{" +:+ name this +:+ ": {}}" in
  ActionSchema.description (schema this) +:+ ":"
  +:+ String (ascii_of_N 10) EmptyString +:+ schemaStr.

(** [getIndexArg] returns [number | null] by its signature; at run time it
    returns whatever the [index] property holds, so the result is a
    value, with [VNull] for [null]. *)
Definition getIndexArg (this : t) (input : value) : value :=
  if negb (hasIndex this) then VNull
  else if truthy input && typeof_object input && has_prop "index" input then
    get_prop input "index"
  else VNull.

End Action.

Definition buildDynamicActionSchema (actions : list Action.t) : z.ZodType :=
  let schema :=
    fold_left
      (fun schema action =>
         let actionSchema :=
           z.describe (ActionSchema.description (Action.schema action))
             (z.nullable (ActionSchema.schema (Action.schema action))) in
         z.extend schema [(Action.name action, actionSchema)])
      actions (z.object []) in
  z.partial schema.

(** ** The agent context *)

(** The browser-control collaborator.  Each method answers from the history of
    effects and from its arguments, by returning or by throwing. *)
Module BrowserContext.
Record t : Type := {
  navigateTo : History -> value -> bool -> Thrown + unit;
  getCurrentPage : History -> bool -> Thrown + Page.t;
  openTab : History -> value -> bool -> Thrown + Page.t;
  closeTab : History -> value -> Thrown + unit;
  switchTab : History -> value -> option bool -> Thrown + unit;
  getAllTabIds : History -> Thrown + list Z
}.
End BrowserContext.

(** The methods of the page objects that the browser context hands out.
    [getState] may resolve to nothing, [getDropdownOptions] to no array. *)
Module PageMethods.
Record t : Type := {
  goBack : History -> Page.t -> Thrown + unit;
  getState : History -> Page.t -> Thrown + option PageState;
  isFileUploader : History -> Page.t -> DOMElementNode -> Thrown + bool;
  clickElementNode : History -> Page.t -> bool -> DOMElementNode -> Thrown + unit;
  inputTextElementNode : History -> Page.t -> bool -> DOMElementNode -> value -> Thrown + unit;
  scrollDown : History -> Page.t -> value -> Thrown + unit;
  scrollUp : History -> Page.t -> value -> Thrown + unit;
  sendKeys : History -> Page.t -> value -> Thrown + unit;
  scrollToText : History -> Page.t -> value -> Thrown + bool;
  getDropdownOptions : History -> Page.t -> value -> Thrown + option (list DropdownOption);
  selectDropdownOption : History -> Page.t -> value -> value -> Thrown + string;
  getReadabilityContent : History -> Page.t -> Thrown + ReadabilityResult.t
}.
End PageMethods.

(** The extraction model: [invoke(prompt)] resolves to an output whose
    [content], as a template literal prints it, is the answer. *)
Module BaseChatModel.
Record t : Type := { invoke : History -> string -> Thrown + string }.
End BaseChatModel.

Module AgentContext.
Record t : Type := {
  browserContext : BrowserContext.t;
  pages : PageMethods.t;
  useVision : bool
}.
End AgentContext.

(** The descriptors imported from [./schemas], which is not among the
    sources: they are a parameter of the builder. *)
Module Schemas.
Record t : Type := {
  doneActionSchema : ActionSchema.t;
  searchGoogleActionSchema : ActionSchema.t;
  goToUrlActionSchema : ActionSchema.t;
  goBackActionSchema : ActionSchema.t;
  clickElementActionSchema : ActionSchema.t;
  inputTextActionSchema : ActionSchema.t;
  switchTabActionSchema : ActionSchema.t;
  openTabActionSchema : ActionSchema.t;
  closeTabActionSchema : ActionSchema.t;
  extractContentActionSchema : ActionSchema.t;
  cacheContentActionSchema : ActionSchema.t;
  scrollDownActionSchema : ActionSchema.t;
  scrollUpActionSchema : ActionSchema.t;
  sendKeysActionSchema : ActionSchema.t;
  scrollToTextActionSchema : ActionSchema.t;
  getDropdownOptionsActionSchema : ActionSchema.t;
  selectDropdownOptionActionSchema : ActionSchema.t
}.
End Schemas.

Module ActionBuilder.
Record t : Type := {
  context : AgentContext.t;
  extractorLLM : BaseChatModel.t
}.
End ActionBuilder.

Definition dquote : string := String (ascii_of_N 34) EmptyString.
Definition newline : string := String (ascii_of_N 10) EmptyString.

(** [PromptTemplate.fromTemplate(...).invoke({ goal, page })] of
    [extract_content]: the template with its two variables filled in. *)
Definition extraction_prompt (goal : value) (page : string) : string :=
  "Your task is to extract the content of the page. You will be given a page and a goal and you should extract all relevant information around this goal from the page. If the goal is vague, summarize the page. Respond in json format. Extraction goal: "
  +:+ to_str goal +:+ ", Page: " +:+ page.

(** ** The handlers of [buildDefaultActions] *)

Section Handlers.

Variable this : ActionBuilder.t.
Variable schemas : Schemas.t.

Let ctx : AgentContext.t := ActionBuilder.context this.
Let bc : BrowserContext.t := AgentContext.browserContext ctx.
Let pg : PageMethods.t := AgentContext.pages ctx.

(** *** The effects a handler can perform *)

Definition emitEvent (actor : Actors) (state : ExecutionState) (details : value) : M unit :=
  perform (Emitted actor state details).

Definition logger_info (msg : string) : M unit := perform (Logged log_info msg).
Definition logger_error (msg : string) : M unit := perform (Logged log_error msg).
Definition logger_debug (msg : string) : M unit := perform (Logged log_debug msg).

Definition browserContext_navigateTo (url : value) (background : bool) : M unit :=
  external (CNavigateTo url background)
    (fun h => BrowserContext.navigateTo bc h url background).
Definition browserContext_getCurrentPage (background : bool) : M Page.t :=
  external (CGetCurrentPage background)
    (fun h => BrowserContext.getCurrentPage bc h background).
Definition browserContext_openTab (url : value) (background : bool) : M Page.t :=
  external (COpenTab url background)
    (fun h => BrowserContext.openTab bc h url background).
Definition browserContext_closeTab (id : value) : M unit :=
  external (CCloseTab id) (fun h => BrowserContext.closeTab bc h id).
Definition browserContext_switchTab (id : value) (background : option bool) : M unit :=
  external (CSwitchTab id background)
    (fun h => BrowserContext.switchTab bc h id background).
Definition browserContext_getAllTabIds : M (list Z) :=
  external CGetAllTabIds (fun h => BrowserContext.getAllTabIds bc h).

Definition page_goBack (p : Page.t) : M unit :=
  external (CGoBack p) (fun h => PageMethods.goBack pg h p).
Definition page_getState (p : Page.t) : M (option PageState) :=
  external (CGetState p) (fun h => PageMethods.getState pg h p).
Definition page_isFileUploader (p : Page.t) (node : DOMElementNode) : M bool :=
  external (CIsFileUploader p node) (fun h => PageMethods.isFileUploader pg h p node).
Definition page_clickElementNode (p : Page.t) (useVision : bool) (node : DOMElementNode)
  : M unit :=
  external (CClickElementNode p useVision node)
    (fun h => PageMethods.clickElementNode pg h p useVision node).
Definition page_inputTextElementNode (p : Page.t) (useVision : bool)
    (node : DOMElementNode) (text : value) : M unit :=
  external (CInputTextElementNode p useVision node text)
    (fun h => PageMethods.inputTextElementNode pg h p useVision node text).
Definition page_scrollDown (p : Page.t) (amount : value) : M unit :=
  external (CScrollDown p amount) (fun h => PageMethods.scrollDown pg h p amount).
Definition page_scrollUp (p : Page.t) (amount : value) : M unit :=
  external (CScrollUp p amount) (fun h => PageMethods.scrollUp pg h p amount).
Definition page_sendKeys (p : Page.t) (keys : value) : M unit :=
  external (CSendKeys p keys) (fun h => PageMethods.sendKeys pg h p keys).
Definition page_scrollToText (p : Page.t) (text : value) : M bool :=
  external (CScrollToText p text) (fun h => PageMethods.scrollToText pg h p text).
Definition page_getDropdownOptions (p : Page.t) (index : value)
  : M (option (list DropdownOption)) :=
  external (CGetDropdownOptions p index)
    (fun h => PageMethods.getDropdownOptions pg h p index).
Definition page_selectDropdownOption (p : Page.t) (index text : value) : M string :=
  external (CSelectDropdownOption p index text)
    (fun h => PageMethods.selectDropdownOption pg h p index text).
Definition page_getReadabilityContent (p : Page.t) : M ReadabilityResult.t :=
  external (CGetReadabilityContent p)
    (fun h => PageMethods.getReadabilityContent pg h p).
Definition extractorLLM_invoke (prompt : string) : M string :=
  external (CExtractorInvoke prompt)
    (fun h => BaseChatModel.invoke (ActionBuilder.extractorLLM this) h prompt).

(** The message of the exception and of the failed results for an index
    that the selector map does not hold. *)
Definition does_not_exist (index : value) : string :=
  "Element with index " +:+ to_str index
  +:+ " does not exist - retry or use alternative actions".

(** *** Completion and navigation *)

Definition done (input : value) : M ActionResult :=
  emitEvent NAVIGATOR ACT_START
    (VStr (ActionSchema.name (Schemas.doneActionSchema schemas)));;
  emitEvent NAVIGATOR ACT_OK (get_prop input "text");;
  mret (new_ActionResult [isDone_ true; extractedContent_ (get_prop input "text")]).

Definition searchGoogle (input : value) : M ActionResult :=
  let msg := "Searching for " +:+ dquote +:+ to_str (get_prop input "query")
             +:+ dquote +:+ " in Google" in
  emitEvent NAVIGATOR ACT_START (VStr msg);;
  browserContext_navigateTo
    (VStr ("https://www.google.com/search?q=" +:+ to_str (get_prop input "query"))) true;;
  let msg2 := "Searched for " +:+ dquote +:+ to_str (get_prop input "query")
              +:+ dquote +:+ " in Google (background)" in
  emitEvent NAVIGATOR ACT_OK (VStr msg2);;
  mret (new_ActionResult [extractedContent_ (VStr msg2); includeInMemory_ true]).

Definition goToUrl (input : value) : M ActionResult :=
  let msg := "Navigating to " +:+ to_str (get_prop input "url") in
  emitEvent NAVIGATOR ACT_START (VStr msg);;
  browserContext_navigateTo (get_prop input "url") true;;
  let msg2 := "Navigated to " +:+ to_str (get_prop input "url") +:+ " (in background)" in
  emitEvent NAVIGATOR ACT_OK (VStr msg2);;
  mret (new_ActionResult [extractedContent_ (VStr msg2); includeInMemory_ true]).

Definition goBack (_input : value) : M ActionResult :=
  let msg := "Navigating back" in
  emitEvent NAVIGATOR ACT_START (VStr msg);;
  page ← browserContext_getCurrentPage true;
  page_goBack page;;
  let msg2 := "Navigated back (background)" in
  emitEvent NAVIGATOR ACT_OK (VStr msg2);;
  mret (new_ActionResult [extractedContent_ (VStr msg2); includeInMemory_ true]).

(** *** Element interaction *)

Definition clickElement (input : value) : M ActionResult :=
  let index := get_prop input "index" in
  let todo := js_or (get_prop input "desc")
                (VStr ("Click element with index " +:+ to_str index)) in
  emitEvent NAVIGATOR ACT_START todo;;
  page ← browserContext_getCurrentPage true;
  state ← page_getState page;
  match selectorMap_get state index with
  | None => throw (ThrownError Error (does_not_exist index))
  | Some elementNode =>
      isUploader ← page_isFileUploader page elementNode;
      if isUploader : bool then
        let msg := "Index " +:+ to_str index
                   +:+ " - has an element which opens file upload dialog. To upload files please use a specific function to upload files" in
        logger_info msg;;
        mret (new_ActionResult [extractedContent_ (VStr msg); includeInMemory_ true])
      else
        try_catch
          (initialTabIds ← browserContext_getAllTabIds;
           page_clickElementNode page (AgentContext.useVision ctx) elementNode;;
           let msg := "Clicked button with index " +:+ to_str index +:+ ": "
                      +:+ textTillNextClickable elementNode in
           logger_info msg;;
           currentTabIds ← browserContext_getAllTabIds;
           msg ← (if (length initialTabIds <? length currentTabIds)%nat then
                    let newTabMsg := "New tab opened - switching to it" in
                    logger_info newTabMsg;;
                    match
                      find (fun id => negb (bool_decide (id ∈ initialTabIds))) currentTabIds
                    with
                    | Some newTabId =>
                        if truthy (VNum newTabId)
                        then browserContext_switchTab (VNum newTabId) None
                        else mret tt
                    | None => mret tt
                    end;;
                    mret (msg +:+ " - " +:+ newTabMsg)
                  else mret msg);
           emitEvent NAVIGATOR ACT_OK (VStr msg);;
           mret (new_ActionResult [extractedContent_ (VStr msg); includeInMemory_ true]))
          (fun error =>
             let msg := "Element no longer available with index " +:+ to_str index
                        +:+ " - most likely the page changed" in
             emitEvent NAVIGATOR ACT_FAIL (VStr msg);;
             mret (new_ActionResult [error_ (error_text error)]))
  end.

Definition inputText (input : value) : M ActionResult :=
  let index := get_prop input "index" in
  let todo := js_or (get_prop input "desc")
                (VStr ("Input text into index " +:+ to_str index)) in
  emitEvent NAVIGATOR ACT_START todo;;
  page ← browserContext_getCurrentPage true;
  state ← page_getState page;
  match selectorMap_get state index with
  | None => throw (ThrownError Error (does_not_exist index))
  | Some elementNode =>
      page_inputTextElementNode page (AgentContext.useVision ctx) elementNode
        (get_prop input "text");;
      let msg := "Input " +:+ to_str (get_prop input "text")
                 +:+ " into index " +:+ to_str index in
      emitEvent NAVIGATOR ACT_OK (VStr msg);;
      mret (new_ActionResult [extractedContent_ (VStr msg); includeInMemory_ true])
  end.

(** *** Tab management *)

Definition switchTab (input : value) : M ActionResult :=
  let tab_id := get_prop input "tab_id" in
  emitEvent NAVIGATOR ACT_START (VStr ("Switching to tab " +:+ to_str tab_id));;
  browserContext_switchTab tab_id (Some true);;
  let msg := "Switched to tab " +:+ to_str tab_id +:+ " (in background)" in
  emitEvent NAVIGATOR ACT_OK (VStr msg);;
  mret (new_ActionResult [extractedContent_ (VStr msg); includeInMemory_ true]).

Definition openTab (input : value) : M ActionResult :=
  let url := get_prop input "url" in
  emitEvent NAVIGATOR ACT_START
    (VStr ("Opening " +:+ to_str url +:+ " in new tab (background)"));;
  page ← browserContext_openTab url true;
  let msg := "Opened " +:+ to_str url +:+ " in new tab (ID: "
             +:+ pretty (Page.tabId page) +:+ ", background mode)" in
  emitEvent NAVIGATOR ACT_OK (VStr msg);;
  mret (new_ActionResult [extractedContent_ (VStr msg); includeInMemory_ true]).

Definition closeTab (input : value) : M ActionResult :=
  let tabId := get_prop input "tab_id" in
  if truthy tabId then
    emitEvent NAVIGATOR ACT_START (VStr ("Closing tab " +:+ to_str tabId));;
    browserContext_closeTab tabId;;
    let msg := "Closed tab " +:+ to_str tabId in
    emitEvent NAVIGATOR ACT_OK (VStr msg);;
    mret (new_ActionResult [extractedContent_ (VStr msg); includeInMemory_ true])
  else
    page ← browserContext_getCurrentPage true;
    let currentTabId := Page.tabId page in
    emitEvent NAVIGATOR ACT_START
      (VStr ("Closing current tab " +:+ pretty currentTabId));;
    browserContext_closeTab (VNum currentTabId);;
    let msg := "Closed current tab " +:+ pretty currentTabId in
    emitEvent NAVIGATOR ACT_OK (VStr msg);;
    mret (new_ActionResult [extractedContent_ (VStr msg); includeInMemory_ true]).

(** *** Content *)

Definition extractContent (input : value) : M ActionResult :=
  let goal := get_prop input "goal" in
  page ← browserContext_getCurrentPage true;
  content ← page_getReadabilityContent page;
  let prompt := extraction_prompt goal (ReadabilityResult.content content) in
  try_catch
    (output ← extractorLLM_invoke prompt;
     let msg := "📄  Extracted from page" +:+ newline +:+ ": " +:+ output +:+ newline in
     mret (new_ActionResult [extractedContent_ (VStr msg); includeInMemory_ true]))
    (fun error =>
       logger_error ("Error extracting content: " +:+ error_text error);;
       let msg := "Failed to extract content from page, you need to extract content from the current state of the page and store it in the memory. Then scroll down if you still need more information." in
       mret (new_ActionResult [extractedContent_ (VStr msg); includeInMemory_ true])).

Definition cacheContent (input : value) : M ActionResult :=
  emitEvent NAVIGATOR ACT_START
    (VStr (ActionSchema.name (Schemas.cacheContentActionSchema schemas)));;
  let msg := "Cached findings: " +:+ to_str (get_prop input "content") in
  emitEvent NAVIGATOR ACT_OK (VStr msg);;
  mret (new_ActionResult [extractedContent_ (VStr msg); includeInMemory_ true]).

(** *** Scrolling and keyboard *)

Definition scrolled_amount (amount : value) : string :=
  if negb (is_undefined amount) then to_str amount +:+ " pixels" else "one page".

Definition scrollDown (input : value) : M ActionResult :=
  let todo := js_or (get_prop input "desc") (VStr "Scroll down the page") in
  emitEvent NAVIGATOR ACT_START todo;;
  page ← browserContext_getCurrentPage true;
  page_scrollDown page (get_prop input "amount");;
  let amount := scrolled_amount (get_prop input "amount") in
  let msg := "Scrolled down the page by " +:+ amount in
  emitEvent NAVIGATOR ACT_OK (VStr msg);;
  mret (new_ActionResult [extractedContent_ (VStr msg); includeInMemory_ true]).

Definition scrollUp (input : value) : M ActionResult :=
  let todo := js_or (get_prop input "desc") (VStr "Scroll up the page") in
  emitEvent NAVIGATOR ACT_START todo;;
  page ← browserContext_getCurrentPage true;
  page_scrollUp page (get_prop input "amount");;
  let amount := scrolled_amount (get_prop input "amount") in
  let msg := "Scrolled up the page by " +:+ amount in
  emitEvent NAVIGATOR ACT_OK (VStr msg);;
  mret (new_ActionResult [extractedContent_ (VStr msg); includeInMemory_ true]).

Definition sendKeys (input : value) : M ActionResult :=
  let keys := get_prop input "keys" in
  let todo := js_or (get_prop input "desc") (VStr ("Send keys: " +:+ to_str keys)) in
  emitEvent NAVIGATOR ACT_START todo;;
  page ← browserContext_getCurrentPage true;
  page_sendKeys page keys;;
  let msg := "Sent keys: " +:+ to_str keys in
  emitEvent NAVIGATOR ACT_OK (VStr msg);;
  mret (new_ActionResult [extractedContent_ (VStr msg); includeInMemory_ true]).

Definition scrollToText (input : value) : M ActionResult :=
  let text := get_prop input "text" in
  let todo := js_or (get_prop input "desc") (VStr ("Scroll to text: " +:+ to_str text)) in
  emitEvent NAVIGATOR ACT_START todo;;
  page ← browserContext_getCurrentPage true;
  try_catch
    (scrolled ← page_scrollToText page text;
     let msg := if scrolled : bool
                then "Scrolled to text: " +:+ to_str text
                else "Text '" +:+ to_str text +:+ "' not found or not visible on page" in
     emitEvent NAVIGATOR ACT_OK (VStr msg);;
     mret (new_ActionResult [extractedContent_ (VStr msg); includeInMemory_ true]))
    (fun error =>
       let msg := "Failed to scroll to text: " +:+ error_text error in
       emitEvent NAVIGATOR ACT_FAIL (VStr msg);;
       mret (new_ActionResult [error_ msg; includeInMemory_ true])).

(** *** Native dropdowns *)

Definition getDropdownOptions (input : value) : M ActionResult :=
  let index := get_prop input "index" in
  let todo := "Getting options from dropdown with index " +:+ to_str index in
  emitEvent NAVIGATOR ACT_START (VStr todo);;
  page ← browserContext_getCurrentPage true;
  state ← page_getState page;
  match selectorMap_get state index with
  | None =>
      let errorMsg := does_not_exist index in
      logger_error errorMsg;;
      emitEvent NAVIGATOR ACT_FAIL (VStr errorMsg);;
      mret (new_ActionResult [error_ errorMsg; includeInMemory_ true])
  | Some elementNode =>
      try_catch
        (options ← page_getDropdownOptions page index;
         match options with
         | Some (opt0 :: opts) =>
             let options := opt0 :: opts in
             let formattedOptions :=
               map (fun opt =>
                      let encodedText := json_string (opt_text opt) in
                      pretty (opt_index opt) +:+ ": text=" +:+ encodedText)
                   options in
             let msg := join newline formattedOptions in
             let msg := msg +:+ newline
                        +:+ "Use the exact text string in select_dropdown_option" in
             logger_info msg;;
             emitEvent NAVIGATOR ACT_OK
               (VStr ("Got " +:+ pretty (Z.of_nat (length options))
                      +:+ " options from dropdown"));;
             mret (new_ActionResult [extractedContent_ (VStr msg); includeInMemory_ true])
         | _ =>
             let msg := "No options found in dropdown" in
             logger_info msg;;
             emitEvent NAVIGATOR ACT_OK (VStr msg);;
             mret (new_ActionResult [extractedContent_ (VStr msg); includeInMemory_ true])
         end)
        (fun error =>
           let errorMsg := "Failed to get dropdown options: " +:+ error_text error in
           logger_error errorMsg;;
           emitEvent NAVIGATOR ACT_FAIL (VStr errorMsg);;
           mret (new_ActionResult [error_ errorMsg; includeInMemory_ true]))
  end.

(** [!tagName || tagName.toLowerCase() !== 'select'] *)
Definition not_a_select (tag : option string) : bool :=
  match tag with
  | None => true
  | Some s => String.eqb s EmptyString || negb (String.eqb (toLowerCase s) "select")
  end.

(** [tagName || 'unknown'] *)
Definition tag_or_unknown (tag : option string) : string :=
  match tag with
  | None => "unknown"
  | Some s => if String.eqb s EmptyString then "unknown" else s
  end.

(** A [string | null] inside a template literal. *)
Definition string_or_null (s : option string) : string := default "null" s.

Definition selectDropdownOption (input : value) : M ActionResult :=
  let index := get_prop input "index" in
  let text := get_prop input "text" in
  let todo := "Select option " +:+ dquote +:+ to_str text +:+ dquote
              +:+ " from dropdown with index " +:+ to_str index in
  emitEvent NAVIGATOR ACT_START (VStr todo);;
  page ← browserContext_getCurrentPage true;
  state ← page_getState page;
  match selectorMap_get state index with
  | None =>
      let errorMsg := does_not_exist index in
      emitEvent NAVIGATOR ACT_FAIL (VStr errorMsg);;
      mret (new_ActionResult [error_ errorMsg; includeInMemory_ true])
  | Some elementNode =>
      if not_a_select (tagName elementNode) then
        let errorMsg := "Cannot select option: Element with index " +:+ to_str index
                        +:+ " is a " +:+ tag_or_unknown (tagName elementNode)
                        +:+ ", not a SELECT" in
        logger_error errorMsg;;
        emitEvent NAVIGATOR ACT_FAIL (VStr errorMsg);;
        mret (new_ActionResult [error_ errorMsg; includeInMemory_ true])
      else
        logger_debug ("Attempting to select '" +:+ to_str text +:+ "' using xpath: "
                      +:+ string_or_null (xpath elementNode));;
        logger_debug ("Element attributes: " +:+ json_string_record (attributes elementNode));;
        logger_debug ("Element tag: " +:+ string_or_null (tagName elementNode));;
        try_catch
          (result ← page_selectDropdownOption page index text;
           let msg := "Selected option " +:+ dquote +:+ to_str text +:+ dquote
                      +:+ " from dropdown with index " +:+ to_str index in
           logger_info msg;;
           emitEvent NAVIGATOR ACT_OK (VStr msg);;
           mret (new_ActionResult [extractedContent_ (VStr result); includeInMemory_ true]))
          (fun error =>
             let errorMsg := "Failed to select option: " +:+ error_text error in
             logger_error errorMsg;;
             emitEvent NAVIGATOR ACT_FAIL (VStr errorMsg);;
             mret (new_ActionResult [error_ errorMsg; includeInMemory_ true]))
  end.

(** *** The registry *)

Definition new_Action (handler : value -> M ActionResult) (schema : ActionSchema.t)
    (hasIndex : bool) : Action.t :=
  {| Action.handler := handler; Action.schema := schema; Action.hasIndex := hasIndex |}.

Definition buildDefaultActions : list Action.t :=
  [ new_Action done (Schemas.doneActionSchema schemas) false;
    new_Action searchGoogle (Schemas.searchGoogleActionSchema schemas) false;
    new_Action goToUrl (Schemas.goToUrlActionSchema schemas) false;
    new_Action goBack (Schemas.goBackActionSchema schemas) false;
    new_Action clickElement (Schemas.clickElementActionSchema schemas) true;
    new_Action inputText (Schemas.inputTextActionSchema schemas) true;
    new_Action switchTab (Schemas.switchTabActionSchema schemas) false;
    new_Action openTab (Schemas.openTabActionSchema schemas) false;
    new_Action closeTab (Schemas.closeTabActionSchema schemas) false;
    new_Action extractContent (Schemas.extractContentActionSchema schemas) false;
    new_Action cacheContent (Schemas.cacheContentActionSchema schemas) false;
    new_Action scrollDown (Schemas.scrollDownActionSchema schemas) false;
    new_Action scrollUp (Schemas.scrollUpActionSchema schemas) false;
    new_Action sendKeys (Schemas.sendKeysActionSchema schemas) false;
    new_Action scrollToText (Schemas.scrollToTextActionSchema schemas) false;
    new_Action getDropdownOptions (Schemas.getDropdownOptionsActionSchema schemas) true;
    new_Action selectDropdownOption (Schemas.selectDropdownOptionActionSchema schemas) true ].

End Handlers.

(** ** A concrete world *)

(** A small page and a driver for it, to run the handlers on. *)
Module Demo.

Definition button : DOMElementNode :=
  {| tagName := Some "button"; xpath := Some "/html/body/button";
     attributes := [("id", "go")]; textTillNextClickable := "Go" |}.

Definition uploader : DOMElementNode :=
  {| tagName := Some "input"; xpath := Some "/html/body/input";
     attributes := [("type", "file")]; textTillNextClickable := EmptyString |}.

Definition dropdown : DOMElementNode :=
  {| tagName := Some "SELECT"; xpath := Some "/html/body/select";
     attributes := []; textTillNextClickable := EmptyString |}.

Definition state : PageState :=
  {| selectorMap := {[ 1 := button; 2 := uploader; 3 := dropdown ]} |}.

Definition page : Page.t := {| Page.tabId := 7 |}.

Definition browser : BrowserContext.t :=
  {| BrowserContext.navigateTo := fun _ _ _ => returned tt;
     BrowserContext.getCurrentPage := fun _ _ => returned page;
     BrowserContext.openTab := fun _ _ _ => returned {| Page.tabId := 8 |};
     BrowserContext.closeTab := fun _ _ => returned tt;
     BrowserContext.switchTab := fun _ _ _ => returned tt;
     BrowserContext.getAllTabIds := fun _ => returned [7] |}.

Definition detached : Thrown := ThrownError Error "Node is detached from document".

(** The page methods; the click and the readability extraction can be made
    to fail. *)
Definition pages (click_fails readability_fails : bool) : PageMethods.t :=
  {| PageMethods.goBack := fun _ _ => returned tt;
     PageMethods.getState := fun _ _ => returned (Some state);
     PageMethods.isFileUploader := fun _ _ node =>
       returned (bool_decide (tagName node = Some "input"));
     PageMethods.clickElementNode := fun _ _ _ _ =>
       if click_fails then threw detached else returned tt;
     PageMethods.inputTextElementNode := fun _ _ _ _ _ => returned tt;
     PageMethods.scrollDown := fun _ _ _ => returned tt;
     PageMethods.scrollUp := fun _ _ _ => returned tt;
     PageMethods.sendKeys := fun _ _ _ => returned tt;
     PageMethods.scrollToText := fun _ _ _ => returned true;
     PageMethods.getDropdownOptions := fun _ _ _ =>
       returned (Some [ {| opt_index := 0; opt_text := "Red"; opt_value := "r" |} ]);
     PageMethods.selectDropdownOption := fun _ _ _ _ => returned "Selected Red";
     PageMethods.getReadabilityContent := fun _ _ =>
       if readability_fails
       then threw (ThrownError Error "Readability script not injected")
       else returned {| ReadabilityResult.content := "Welcome" |} |}.

Definition model (fails : bool) : BaseChatModel.t :=
  {| BaseChatModel.invoke := fun _ _ =>
       if fails then threw (ThrownError Error "429 quota exceeded")
       else returned "{}" |}.

Definition builder (click_fails readability_fails model_fails : bool) : ActionBuilder.t :=
  {| ActionBuilder.context :=
       {| AgentContext.browserContext := browser;
          AgentContext.pages := pages click_fails readability_fails;
          AgentContext.useVision := false |};
     ActionBuilder.extractorLLM := model model_fails |}.

(** A world where everything works. *)
Definition healthy : ActionBuilder.t := builder false false false.

End Demo.

(** * Properties *)

(** The operations of the monad and the effect wrappers; [run] unfolds them,
    down to the answers of the collaborators. *)
Create HintDb handler_ops.

#[global] Hint Unfold
  mbind mret M_bind M_ret bind ret throw try_catch external perform after returned threw
  emitEvent logger_info logger_error logger_debug
  browserContext_navigateTo browserContext_getCurrentPage browserContext_openTab
  browserContext_closeTab browserContext_switchTab browserContext_getAllTabIds
  page_goBack page_getState page_isFileUploader page_clickElementNode
  page_inputTextElementNode page_scrollDown page_scrollUp page_sendKeys
  page_scrollToText page_getDropdownOptions page_selectDropdownOption
  page_getReadabilityContent extractorLLM_invoke : handler_ops.

Tactic Notation "run" :=
  autounfold with handler_ops; cbv beta iota zeta delta [rev_append app].

Tactic Notation "run" "in" hyp(H) :=
  autounfold with handler_ops in H; cbv beta iota zeta delta [rev_append app] in H.

(** The two halves of the agent context that the handlers call. *)
Definition browser (this : ActionBuilder.t) : BrowserContext.t :=
  AgentContext.browserContext (ActionBuilder.context this).

Definition pages (this : ActionBuilder.t) : PageMethods.t :=
  AgentContext.pages (ActionBuilder.context this).

(** The effects with which an index-bearing handler starts: it announces
    [todo], asks for the current page and for its state. *)
Definition lookup_trace (todo : value) (page : Page.t) : Trace :=
  [ Emitted NAVIGATOR ACT_START todo; Called (CGetCurrentPage true); Called (CGetState page) ].

(** After the history [h] and the announcement of [todo], the driver hands out
    [page] and a state of it, in whose selector map [index] resolves to
    [found]. *)
Definition resolves (this : ActionBuilder.t) (h : History) (todo index : value)
    (page : Page.t) (found : option DOMElementNode) : Prop :=
  exists state : option PageState,
    BrowserContext.getCurrentPage (browser this)
      (Emitted NAVIGATOR ACT_START todo :: h) true = returned page
    /\ PageMethods.getState (pages this)
         (Called (CGetCurrentPage true) :: Emitted NAVIGATOR ACT_START todo :: h) page
       = returned state
    /\ selectorMap_get state index = found.

(** The payloads of the start events. *)
Definition click_todo (input : value) : value :=
  js_or (get_prop input "desc")
    (VStr ("Click element with index " +:+ to_str (get_prop input "index"))).

Definition input_todo (input : value) : value :=
  js_or (get_prop input "desc")
    (VStr ("Input text into index " +:+ to_str (get_prop input "index"))).

Definition options_todo (input : value) : value :=
  VStr ("Getting options from dropdown with index " +:+ to_str (get_prop input "index")).

Definition select_todo (input : value) : value :=
  VStr ("Select option " +:+ dquote +:+ to_str (get_prop input "text") +:+ dquote
        +:+ " from dropdown with index " +:+ to_str (get_prop input "index")).

Definition upload_dialog_msg (index : value) : string :=
  "Index " +:+ to_str index
  +:+ " - has an element which opens file upload dialog. To upload files please use a specific function to upload files".

Definition stale_msg (index : value) : string :=
  "Element no longer available with index " +:+ to_str index
  +:+ " - most likely the page changed".

(** [s] occurs in [msg]. *)
Definition mentions (msg s : string) : Prop :=
  exists pre post : string, msg = pre +:+ s +:+ post.

Ltac unfold_context :=
  unfold resolves, browser, pages, lookup_trace, click_todo, input_todo, options_todo,
    select_todo in *.

(** Rewrites with the answer of a collaborator and carries on. *)
Ltac answer H := rewrite H; run.

(** The messages of [extract_content]. *)
Definition extracted_msg (output : string) : string :=
  "📄  Extracted from page" +:+ newline +:+ ": " +:+ output +:+ newline.

Definition extraction_fallback_msg : string :=
  "Failed to extract content from page, you need to extract content from the current state of the page and store it in the memory. Then scroll down if you still need more information.".

(** Case analysis on the answers of the collaborators that the goal still
    waits for. *)
Ltac answers :=
  repeat match goal with
         | |- context [match ?x with inl _ => _ | inr _ => _ end] =>
             destruct x eqn:?; run
         end.

(** Two descriptors and the actions built on them, to run [Action] on. *)
Module Examples.

(** A descriptor with the shape of the [click_element] one. *)
Definition click_schema : ActionSchema.t :=
  {| ActionSchema.name := "click_element";
     ActionSchema.description := "Click element";
     ActionSchema.schema :=
       z.object [("desc", z.optional z.string); ("index", z.number)] |}.

(** A descriptor without fields. *)
Definition go_back_schema : ActionSchema.t :=
  {| ActionSchema.name := "go_back";
     ActionSchema.description := "Navigate back";
     ActionSchema.schema := z.object [] |}.

Definition click : Action.t := new_Action (clickElement Demo.healthy) click_schema true.

Definition back : Action.t := new_Action (goBack Demo.healthy) go_back_schema false.

Definition index_expected_number : z.ZodError :=
  {| z.issues := [ {| z.path := ["index"];
                      z.issue_message := "Expected number, received string" |} ] |}.

(** An action that bears the name [__proto__]. *)
Definition proto : Action.t :=
  new_Action (clickElement Demo.healthy)
    {| ActionSchema.name := z.proto_key;
       ActionSchema.description := "Click element";
       ActionSchema.schema := z.object [("index", z.number)] |}
    true.

(** A second action of the name [click_element], without fields. *)
Definition click_again : Action.t :=
  new_Action (goBack Demo.healthy)
    {| ActionSchema.name := "click_element";
       ActionSchema.description := "Click again";
       ActionSchema.schema := z.object [] |}
    false.

End Examples.

(** The helper as the specification words it: the numeric index when the input
    is an object with a numeric [index] field, and none otherwise. *)
Definition spec_elementIndexOf (input : value) : value :=
  match input with
  | VObj fields =>
      match assoc "index" fields with
      | Some (VNum n) => VNum n
      | _ => VNull
      end
  | _ => VNull
  end.

(** The field that the builder adds for an action, before [partial()]. *)
Definition action_field (action : Action.t) : string * z.ZodType :=
  (Action.name action,
   z.describe (ActionSchema.description (Action.schema action))
     (z.nullable (ActionSchema.schema (Action.schema action)))).

(** The events of an invocation are one start event followed by one terminal
    event. *)
Definition bracketed (t : Trace) : Prop :=
  exists (d1 d2 : value) (st : ExecutionState),
    events t = [ (ACT_START, d1); (st, d2) ] /\ is_terminal st = true.

(** Every invocation of the handler that returns is bracketed. *)
Definition keeps_protocol (handler : value -> M ActionResult) : Prop :=
  forall (input : value) (h : History) (r : ActionResult) (t : Trace),
    handler input h = (returned r, t) -> bracketed t.

(** Case analysis on everything a run waits for, in a hypothesis. *)
Ltac answers_in H :=
  repeat (match type of H with
          | context [match ?x with inl _ => _ | inr _ => _ end] => destruct x eqn:?
          | context [match ?x with Some _ => _ | None => _ end] => destruct x eqn:?
          | context [match ?x with [] => _ | _ :: _ => _ end] => destruct x eqn:?
          | context [if ?b then _ else _] => destruct b eqn:?
          end; run in H).

Ltac settle_protocol H :=
  run in H; answers_in H; inversion H; subst;
  try (eexists _, _, _; split; [reflexivity | reflexivity]).

(** ** The validator prompt *)

(** The task list of [prompts/validator.ts]: the class [ValidatorPrompt] keeps
    the tasks it was given, the first by its constructor and the others by
    [addFollowUpTask], and prints them into its system message.  The object is
    mutated in place; here each method returns the new object. *)
Module ValidatorPrompt.

Record t : Type := { tasks : list string }.

(** [new ValidatorPrompt(task)] *)
Definition new (task : string) : t := {| tasks := [] ++ [task] |}.

Definition addFollowUpTask (this : t) (task : string) : t :=
  {| tasks := tasks this ++ [task] |}.

(** [`${index + 1}. ${task}`] *)
Definition numbered (index : nat) (task : string) : string :=
  pretty (Z.of_nat index + 1) +:+ ". " +:+ task.

Definition follow_up_notice : string :=
  "The above task is a follow up task of the following tasks, please take the previous context into account when validating the task.".

(** [tasksToValidate()].  An element read past the end of an array is
    [undefined], which a template literal prints as such. *)
Definition tasksToValidate (this : t) : string :=
  match tasks this with
  | [task] => task
  | _ =>
      let lastTask := default "undefined" (last (tasks this)) in
      let previousTasks := join newline (imap numbered (removelast (tasks this))) in
      newline +:+ lastTask +:+ newline +:+ newline +:+ follow_up_notice
      +:+ newline +:+ newline +:+ "Previous tasks:" +:+ newline
      +:+ previousTasks +:+ newline
  end.

End ValidatorPrompt.

(** ** More vocabulary *)

(** The background flag of a call to the driver: the calls that take one
    carry it, a [switchTab] without the argument does not ask for the
    background, and the other calls have no such flag. *)
Definition in_background (c : Call) : bool :=
  match c with
  | CNavigateTo _ background | CGetCurrentPage background | COpenTab _ background =>
      background
  | CSwitchTab _ background => default false background
  | _ => true
  end.

(** The phases of the events among some effects. *)
Definition phases (t : Trace) : list ExecutionState := (events t).*1.

Definition clicked_msg (index : value) (node : DOMElementNode) : string :=
  "Clicked button with index " +:+ to_str index +:+ ": " +:+ textTillNextClickable node.

(** [Array.from(currentTabIds).find(id => !initialTabIds.has(id))] *)
Definition first_new_tab (initialTabIds currentTabIds : list Z) : option Z :=
  find (fun id => negb (bool_decide (id ∈ initialTabIds))) currentTabIds.

Definition scroll_todo (input : value) : value :=
  js_or (get_prop input "desc")
    (VStr ("Scroll to text: " +:+ to_str (get_prop input "text"))).

(** One line of the list that [get_dropdown_options] prints. *)
Definition option_line (opt : DropdownOption) : string :=
  pretty (opt_index opt) +:+ ": text=" +:+ json_string (opt_text opt).

Definition not_a_select_msg (index : value) (node : DOMElementNode) : string :=
  "Cannot select option: Element with index " +:+ to_str index
  +:+ " is a " +:+ tag_or_unknown (tagName node) +:+ ", not a SELECT".

(** The effects of [click_element] up to and including the second reading of
    the tab ids, on an element that is no file uploader. *)
Definition click_trace (input : value) (page : Page.t) (node : DOMElementNode)
    (vision : bool) : Trace :=
  lookup_trace (click_todo input) page
  ++ [ Called (CIsFileUploader page node);
       Called CGetAllTabIds;
       Called (CClickElementNode page vision node);
       Logged log_info (clicked_msg (get_prop input "index") node);
       Called CGetAllTabIds ].

(** The click goes through: the element is found and is no file uploader, the
    tab ids are [initial] before the click and [current] after it. *)
Definition click_goes_through (this : ActionBuilder.t) (input : value) (h : History)
    (page : Page.t) (node : DOMElementNode) (initial current : list Z) : Prop :=
  let index := get_prop input "index" in
  let vision := AgentContext.useVision (ActionBuilder.context this) in
  let h3 := rev_append (lookup_trace (click_todo input) page) h in
  let h4 := Called (CIsFileUploader page node) :: h3 in
  let h5 := Called CGetAllTabIds :: h4 in
  let h6 := Logged log_info (clicked_msg index node)
            :: Called (CClickElementNode page vision node) :: h5 in
  resolves this h (click_todo input) index page (Some node)
  /\ PageMethods.isFileUploader (pages this) h3 page node = returned false
  /\ BrowserContext.getAllTabIds (browser this) h4 = returned initial
  /\ PageMethods.clickElementNode (pages this) h5 page vision node = returned tt
  /\ BrowserContext.getAllTabIds (browser this) h6 = returned current.

Definition new_tab_msg : string := "New tab opened - switching to it".

(** Case analysis on everything a run in the goal still waits for. *)
Ltac branches :=
  repeat (match goal with
          | |- context [match ?x with inl _ => _ | inr _ => _ end] => destruct x eqn:?
          | |- context [match ?x with Some _ => _ | None => _ end] => destruct x eqn:?
          | |- context [match ?x with [] => _ | _ :: _ => _ end] => destruct x eqn:?
          | |- context [if ?b then _ else _] => destruct b eqn:?
          end; run).

(** Every effect of every outcome of a registered handler: the run of the
    handler in [H] is split into its paths, each with its result and trace. *)
Ltac paths_of H :=
  cbv delta [ done searchGoogle goToUrl goBack clickElement inputText switchTab openTab
              closeTab extractContent cacheContent scrollDown scrollUp sendKeys
              scrollToText getDropdownOptions selectDropdownOption ] in H;
  run in H; answers_in H; inversion H; subst; clear H.

(** The same step for each of the seventeen actions of the registry. *)
Tactic Notation "each_action" hyp(Hi) ident(i) tactic3(tac) :=
  unfold buildDefaultActions, new_Action in Hi;
  do 17 (destruct i as [|i]; [injection Hi as <-; simpl; tac|]);
  discriminate Hi.

(** The loop of [parse] over the shape of an object schema, on its own: the
    issues and the parsed properties of the fields [sh] of an input object
    with the properties [fields]. *)
Fixpoint parse_fields (fields : list (string * value)) (p : list string)
    (sh : list (string * z.ZodType)) : list z.ZodIssue * list (string * value) :=
  match sh with
  | [] => ([], [])
  | (k, tk) :: sh' =>
      let (errs, out) := parse_fields fields p sh' in
      let vk := default VUndefined (assoc k fields) in
      match z.parse tk (p ++ [k]) vk with
      | inl errs_k => (errs_k ++ errs, out)
      | inr d =>
          if bool_decide (is_Some (assoc k fields)) || negb (is_undefined d)
          then (errs, (k, d) :: out) else (errs, out)
      end
  end.


(** The property names that every plain object inherits from
    [Object.prototype].  The validator reads the field of an input object with
    [data[key]] and [key in data], which find inherited properties too, while
    [get_prop] and [assoc] read own properties: the two agree on every key
    that is none of these. *)
Definition object_prototype_keys : list string :=
  [ "constructor"; "__defineGetter__"; "__defineSetter__"; "hasOwnProperty";
    "__lookupGetter__"; "__lookupSetter__"; "isPrototypeOf"; "propertyIsEnumerable";
    "toString"; "valueOf"; "__proto__"; "toLocaleString" ].

(** The field of an action in the combined schema. *)
Definition dynamic_field (action : Action.t) : string * z.ZodType :=
  ((action_field action).1, z.optional (action_field action).2).

(** What the combined schema takes for the field of an action: nothing,
    [null], or an input that the action's own schema accepts. *)
Definition fits (action : Action.t) (v : value) : bool :=
  nullish v || z.is_success (z.safeParse (ActionSchema.schema (Action.schema action)) v).

(** A driver in which a click opens a tab: the set of tab ids is [7] until a
    click was dispatched and [7; 8] from then on. *)
Module NewTab.

Definition clicked (h : History) : bool :=
  existsb (fun e => match e with Called (CClickElementNode _ _ _) => true | _ => false end) h.

Definition browser : BrowserContext.t :=
  {| BrowserContext.navigateTo := fun _ _ _ => returned tt;
     BrowserContext.getCurrentPage := fun _ _ => returned Demo.page;
     BrowserContext.openTab := fun _ _ _ => returned {| Page.tabId := 8 |};
     BrowserContext.closeTab := fun _ _ => returned tt;
     BrowserContext.switchTab := fun _ _ _ => returned tt;
     BrowserContext.getAllTabIds := fun h => returned (if clicked h then [7; 8] else [7]) |}.

Definition builder : ActionBuilder.t :=
  {| ActionBuilder.context :=
       {| AgentContext.browserContext := browser;
          AgentContext.pages := Demo.pages false false;
          AgentContext.useVision := false |};
     ActionBuilder.extractorLLM := Demo.model false |}.

(** A catalogue for the registry: the descriptors of the index-bearing
    actions have the shape of the [click_element] one, the others have no
    field. *)
Definition schemas : Schemas.t :=
  Schemas.Build_t Examples.go_back_schema Examples.go_back_schema
    Examples.go_back_schema Examples.go_back_schema Examples.click_schema
    Examples.click_schema Examples.go_back_schema Examples.go_back_schema
    Examples.go_back_schema Examples.go_back_schema Examples.go_back_schema
    Examples.go_back_schema Examples.go_back_schema Examples.go_back_schema
    Examples.go_back_schema Examples.click_schema Examples.click_schema.

End NewTab.

(** ** [click_element] *)

Lemma clickElement_missing (this : ActionBuilder.t) (input : value) (h : History)
    (page : Page.t) :
  resolves this h (click_todo input) (get_prop input "index") page None ->
  clickElement this input h =
    (threw (ThrownError Error (does_not_exist (get_prop input "index"))),
     lookup_trace (click_todo input) page).
Proof.
  intros (state & Hpage & Hstate & Hnode). unfold_context.
  unfold clickElement. run. answer Hpage. answer Hstate. answer Hnode. reflexivity.
Qed.

Lemma clickElement_file_uploader (this : ActionBuilder.t) (input : value) (h : History)
    (page : Page.t) (node : DOMElementNode) :
  let index := get_prop input "index" in
  resolves this h (click_todo input) index page (Some node) ->
  PageMethods.isFileUploader (pages this)
    (rev_append (lookup_trace (click_todo input) page) h) page node = returned true ->
  clickElement this input h =
    (returned (new_ActionResult
                 [extractedContent_ (VStr (upload_dialog_msg index)); includeInMemory_ true]),
     lookup_trace (click_todo input) page
     ++ [ Called (CIsFileUploader page node); Logged log_info (upload_dialog_msg index) ]).
Proof.
  intros index (state & Hpage & Hstate & Hnode) Hup. subst index. unfold_context.
  simpl in Hup. unfold clickElement. run.
  answer Hpage. answer Hstate. answer Hnode. answer Hup. reflexivity.
Qed.

Lemma clickElement_click_fails (this : ActionBuilder.t) (input : value) (h : History)
    (page : Page.t) (node : DOMElementNode) (ids : list Z) (e : Thrown) :
  let index := get_prop input "index" in
  let h3 := rev_append (lookup_trace (click_todo input) page) h in
  let vision := AgentContext.useVision (ActionBuilder.context this) in
  resolves this h (click_todo input) index page (Some node) ->
  PageMethods.isFileUploader (pages this) h3 page node = returned false ->
  BrowserContext.getAllTabIds (browser this) (Called (CIsFileUploader page node) :: h3)
    = returned ids ->
  PageMethods.clickElementNode (pages this)
    (Called CGetAllTabIds :: Called (CIsFileUploader page node) :: h3) page vision node
    = threw e ->
  clickElement this input h =
    (returned (new_ActionResult [error_ (error_text e)]),
     lookup_trace (click_todo input) page
     ++ [ Called (CIsFileUploader page node);
          Called CGetAllTabIds;
          Called (CClickElementNode page vision node);
          Emitted NAVIGATOR ACT_FAIL (VStr (stale_msg index)) ]).
Proof.
  intros index h3 vision (state & Hpage & Hstate & Hnode) Hup Hids Hclick.
  subst index h3 vision. unfold_context. simpl in Hup, Hids, Hclick.
  unfold clickElement. run.
  answer Hpage. answer Hstate. answer Hnode. answer Hup. answer Hids. answer Hclick.
  reflexivity.
Qed.

Lemma append_assoc (a b c : string) : (a +:+ b) +:+ c = a +:+ (b +:+ c).
Proof.
  induction a as [|x a IH]; [reflexivity|].
  change (String x ((a +:+ b) +:+ c) = String x (a +:+ (b +:+ c))).
  by rewrite IH.
Qed.

Lemma upload_dialog_msg_mentions (index : value) :
  mentions (upload_dialog_msg index) "file upload dialog".
Proof.
  exists ("Index " +:+ to_str index +:+ " - has an element which opens "),
    ". To upload files please use a specific function to upload files".
  unfold upload_dialog_msg. by rewrite !append_assoc.
Qed.

(** C9.  When the element at the given index exists and the page reports it as
    a file uploader, [click_element] dispatches no click: it returns a result
    whose [extractedContent] is the message about the file upload dialog, with
    [error] unset and [includeInMemory] true. *)
Theorem click_file_uploader_result (this : ActionBuilder.t) (input : value) (h : History)
    (page : Page.t) (node : DOMElementNode) :
  let index := get_prop input "index" in
  resolves this h (click_todo input) index page (Some node) ->
  PageMethods.isFileUploader (pages this)
    (rev_append (lookup_trace (click_todo input) page) h) page node = returned true ->
  exists (r : ActionResult) (t : Trace),
    clickElement this input h = (returned r, t)
    /\ (forall p vision n, CClickElementNode p vision n ∉ calls t)
    /\ extractedContent r = Some (VStr (upload_dialog_msg index))
    /\ mentions (upload_dialog_msg index) "file upload dialog"
    /\ error r = None
    /\ includeInMemory r = true.
Proof.
  intros index Hres Hup.
  eexists _, _. split; [exact (clickElement_file_uploader this input h page node Hres Hup)|].
  split.
  - intros p vision n Hin. unfold lookup_trace, calls in Hin. simpl in Hin.
    repeat (apply elem_of_cons in Hin as [Hin | Hin]; [discriminate Hin|]).
    by apply elem_of_nil in Hin.
  - repeat split; [apply upload_dialog_msg_mentions].
Qed.

Lemma click_file_uploader_result_witness :
  exists (r : ActionResult) (t : Trace),
    clickElement Demo.healthy (VObj [("index", VNum 2)]) [] = (returned r, t)
    /\ (forall p vision n, CClickElementNode p vision n ∉ calls t)
    /\ extractedContent r = Some (VStr (upload_dialog_msg (VNum 2)))
    /\ mentions (upload_dialog_msg (VNum 2)) "file upload dialog"
    /\ error r = None
    /\ includeInMemory r = true.
Proof.
  apply (click_file_uploader_result Demo.healthy (VObj [("index", VNum 2)]) []
           Demo.page Demo.uploader).
  - exists (Some Demo.state). repeat split; reflexivity.
  - reflexivity.
Defined.

(** C2, as amended.  [click_element] treats its two failures differently.  An
    index that the selector map does not hold makes the handler throw an
    [Error] naming the index, after the start event alone.  A click that fails
    on an element that was found is caught: the handler emits [ACT_FAIL] and
    returns a result whose [error] is the text of the failure. *)
Theorem click_element_failures (this : ActionBuilder.t) (input : value) (h : History)
    (page : Page.t) (found : option DOMElementNode) :
  let index := get_prop input "index" in
  let h3 := rev_append (lookup_trace (click_todo input) page) h in
  let vision := AgentContext.useVision (ActionBuilder.context this) in
  resolves this h (click_todo input) index page found ->
  match found with
  | None =>
      clickElement this input h =
        (threw (ThrownError Error (does_not_exist index)),
         lookup_trace (click_todo input) page)
  | Some node =>
      forall (ids : list Z) (e : Thrown),
        PageMethods.isFileUploader (pages this) h3 page node = returned false ->
        BrowserContext.getAllTabIds (browser this) (Called (CIsFileUploader page node) :: h3)
          = returned ids ->
        PageMethods.clickElementNode (pages this)
          (Called CGetAllTabIds :: Called (CIsFileUploader page node) :: h3)
          page vision node = threw e ->
        exists (r : ActionResult) (t : Trace),
          clickElement this input h = (returned r, t)
          /\ error r = Some (error_text e)
          /\ extractedContent r = None
          /\ events t = [ (ACT_START, click_todo input);
                          (ACT_FAIL, VStr (stale_msg index)) ]
  end.
Proof.
  intros index h3 vision Hres. destruct found as [node|].
  - intros ids e Hup Hids Hclick.
    eexists _, _. split.
    + exact (clickElement_click_fails this input h page node ids e Hres Hup Hids Hclick).
    + repeat split.
  - exact (clickElement_missing this input h page Hres).
Qed.

Lemma click_element_failures_witness :
  clickElement (Demo.builder true false false) (VObj [("index", VNum 9)]) [] =
    (threw (ThrownError Error
              "Element with index 9 does not exist - retry or use alternative actions"),
     lookup_trace (VStr "Click element with index 9") Demo.page)
  /\ exists (r : ActionResult) (t : Trace),
       clickElement (Demo.builder true false false) (VObj [("index", VNum 1)]) []
         = (returned r, t)
       /\ error r = Some "Node is detached from document"
       /\ extractedContent r = None
       /\ events t =
            [ (ACT_START, VStr "Click element with index 1");
              (ACT_FAIL,
               VStr "Element no longer available with index 1 - most likely the page changed") ].
Proof.
  split.
  - apply (click_element_failures (Demo.builder true false false)
             (VObj [("index", VNum 9)]) [] Demo.page None).
    exists (Some Demo.state). repeat split; reflexivity.
  - apply (click_element_failures (Demo.builder true false false)
             (VObj [("index", VNum 1)]) [] Demo.page (Some Demo.button)
             ltac:(exists (Some Demo.state); repeat split; reflexivity)
             [7] Demo.detached); reflexivity.
Defined.

(** The reading of C2 that the code refutes: an index outside the selector map
    would give a failed result.  On the demo page, which holds the indices 1 to
    3, [click_element] with index 9 throws. *)
Lemma click_element_missing_index_throws :
  selectorMap Demo.state !! 9 = None
  /\ (clickElement Demo.healthy (VObj [("index", VNum 9)]) []).1 =
       threw (ThrownError Error
                "Element with index 9 does not exist - retry or use alternative actions")
  /\ ~ (exists r : ActionResult,
          (clickElement Demo.healthy (VObj [("index", VNum 9)]) []).1 = returned r
          /\ is_Some (error r)).
Proof.
  split; [reflexivity|]. split; [reflexivity|].
  intros (r & Hr & _). discriminate Hr.
Qed.

(** ** [input_text] and the dropdown handlers on a missing index *)

Lemma inputText_missing (this : ActionBuilder.t) (input : value) (h : History)
    (page : Page.t) :
  resolves this h (input_todo input) (get_prop input "index") page None ->
  inputText this input h =
    (threw (ThrownError Error (does_not_exist (get_prop input "index"))),
     lookup_trace (input_todo input) page).
Proof.
  intros (state & Hpage & Hstate & Hnode). unfold_context.
  unfold inputText. run. answer Hpage. answer Hstate. answer Hnode. reflexivity.
Qed.

Lemma getDropdownOptions_missing (this : ActionBuilder.t) (input : value) (h : History)
    (page : Page.t) :
  let index := get_prop input "index" in
  resolves this h (options_todo input) index page None ->
  getDropdownOptions this input h =
    (returned (new_ActionResult [error_ (does_not_exist index); includeInMemory_ true]),
     lookup_trace (options_todo input) page
     ++ [ Logged log_error (does_not_exist index);
          Emitted NAVIGATOR ACT_FAIL (VStr (does_not_exist index)) ]).
Proof.
  intros index (state & Hpage & Hstate & Hnode). subst index. unfold_context.
  unfold getDropdownOptions. run. answer Hpage. answer Hstate. answer Hnode. reflexivity.
Qed.

Lemma selectDropdownOption_missing (this : ActionBuilder.t) (input : value) (h : History)
    (page : Page.t) :
  let index := get_prop input "index" in
  resolves this h (select_todo input) index page None ->
  selectDropdownOption this input h =
    (returned (new_ActionResult [error_ (does_not_exist index); includeInMemory_ true]),
     lookup_trace (select_todo input) page
     ++ [ Emitted NAVIGATOR ACT_FAIL (VStr (does_not_exist index)) ]).
Proof.
  intros index (state & Hpage & Hstate & Hnode). subst index. unfold_context.
  unfold selectDropdownOption. run. answer Hpage. answer Hstate. answer Hnode. reflexivity.
Qed.

Lemma does_not_exist_mentions (index : value) :
  mentions (does_not_exist index) (to_str index).
Proof.
  exists "Element with index ", " does not exist - retry or use alternative actions".
  reflexivity.
Qed.

(** C3.  On an index that the current element map does not hold,
    [get_dropdown_options] and [select_dropdown_option] return a result whose
    [error] is a diagnostic naming the index, and do not throw;
    [click_element] and [input_text] throw an [Error] with that diagnostic. *)
Theorem missing_index_outcomes (this : ActionBuilder.t) (input : value) (h : History)
    (page : Page.t) :
  let index := get_prop input "index" in
  (resolves this h (options_todo input) index page None ->
   exists (r : ActionResult) (t : Trace),
     getDropdownOptions this input h = (returned r, t)
     /\ error r = Some (does_not_exist index))
  /\ (resolves this h (select_todo input) index page None ->
      exists (r : ActionResult) (t : Trace),
        selectDropdownOption this input h = (returned r, t)
        /\ error r = Some (does_not_exist index))
  /\ (resolves this h (click_todo input) index page None ->
      (clickElement this input h).1 = threw (ThrownError Error (does_not_exist index)))
  /\ (resolves this h (input_todo input) index page None ->
      (inputText this input h).1 = threw (ThrownError Error (does_not_exist index)))
  /\ mentions (does_not_exist index) (to_str index).
Proof.
  intros index. repeat split.
  - intros Hres. eexists _, _. split; [exact (getDropdownOptions_missing _ _ _ _ Hres)|].
    reflexivity.
  - intros Hres. eexists _, _. split; [exact (selectDropdownOption_missing _ _ _ _ Hres)|].
    reflexivity.
  - intros Hres. by rewrite (clickElement_missing _ _ _ _ Hres).
  - intros Hres. by rewrite (inputText_missing _ _ _ _ Hres).
  - apply does_not_exist_mentions.
Qed.

Lemma missing_index_outcomes_witness :
  let input := VObj [("index", VNum 9); ("text", VStr "Red")] in
  let diagnostic :=
    "Element with index 9 does not exist - retry or use alternative actions" in
  (exists (r : ActionResult) (t : Trace),
     getDropdownOptions Demo.healthy input [] = (returned r, t)
     /\ error r = Some diagnostic)
  /\ (exists (r : ActionResult) (t : Trace),
        selectDropdownOption Demo.healthy input [] = (returned r, t)
        /\ error r = Some diagnostic)
  /\ (clickElement Demo.healthy input []).1 = threw (ThrownError Error diagnostic)
  /\ (inputText Demo.healthy input []).1 = threw (ThrownError Error diagnostic).
Proof.
  intros input diagnostic.
  pose proof (missing_index_outcomes Demo.healthy input [] Demo.page)
    as (Hoptions & Hselect & Hclick & Htext & _).
  assert (Hres : forall todo, resolves Demo.healthy [] todo (VNum 9) Demo.page None)
    by (intros todo; exists (Some Demo.state); repeat split; reflexivity).
  split; [|split; [|split]].
  - exact (Hoptions (Hres _)).
  - exact (Hselect (Hres _)).
  - exact (Hclick (Hres _)).
  - exact (Htext (Hres _)).
Defined.

(** ** [extract_content] *)

(** C4, as amended.  [extract_content] recovers from one failure only, that
    of the extraction model: it then logs the error and returns a result with
    [error] unset whose [extractedContent] tells the caller to extract from the
    current state of the page.  A failure to obtain the current page or its
    readability content is not caught: the handler throws what the driver
    threw.  The handler emits no event on any path. *)
Theorem extract_content_outcomes (this : ActionBuilder.t) (input : value) (h : History) :
  let goal := get_prop input "goal" in
  match BrowserContext.getCurrentPage (browser this) h true with
  | inl e => extractContent this input h = (threw e, [Called (CGetCurrentPage true)])
  | inr page =>
      let h1 := Called (CGetCurrentPage true) :: h in
      match PageMethods.getReadabilityContent (pages this) h1 page with
      | inl e =>
          extractContent this input h =
            (threw e, [Called (CGetCurrentPage true); Called (CGetReadabilityContent page)])
      | inr content =>
          let prompt := extraction_prompt goal (ReadabilityResult.content content) in
          let asked := [ Called (CGetCurrentPage true);
                         Called (CGetReadabilityContent page);
                         Called (CExtractorInvoke prompt) ] in
          match BaseChatModel.invoke (ActionBuilder.extractorLLM this)
                  (Called (CGetReadabilityContent page) :: h1) prompt with
          | inl e =>
              extractContent this input h =
                (returned (new_ActionResult
                             [extractedContent_ (VStr extraction_fallback_msg);
                              includeInMemory_ true]),
                 asked ++ [Logged log_error ("Error extracting content: " +:+ error_text e)])
          | inr output =>
              extractContent this input h =
                (returned (new_ActionResult
                             [extractedContent_ (VStr (extracted_msg output));
                              includeInMemory_ true]),
                 asked)
          end
      end
  end.
Proof.
  intros goal. subst goal. unfold browser, pages, extractContent. run.
  destruct (BrowserContext.getCurrentPage _ _ _) as [e|page]; run; [reflexivity|].
  destruct (PageMethods.getReadabilityContent _ _ _) as [e|content]; run; [reflexivity|].
  destruct (BaseChatModel.invoke _ _ _) as [e|output]; reflexivity.
Qed.

(** The reading of C4 that the code refutes: [extract_content] would never
    throw.  When the readability extraction fails, the handler throws. *)
Lemma extract_content_can_throw :
  (extractContent (Demo.builder false true false) (VObj [("goal", VStr "prices")]) []).1 =
    threw (ThrownError Error "Readability script not injected")
  /\ ~ (exists r : ActionResult,
          (extractContent (Demo.builder false true false)
             (VObj [("goal", VStr "prices")]) []).1 = returned r).
Proof.
  split; [reflexivity|]. intros (r & Hr). discriminate Hr.
Qed.

Lemma extractContent_no_events (this : ActionBuilder.t) (input : value) (h : History) :
  events (extractContent this input h).2 = [].
Proof.
  unfold extractContent. run. answers; reflexivity.
Qed.

(** ** The event protocol *)

(** C1 at the two places where the code breaks it.  On the file-uploader
    branch [click_element] returns after its start event, without a terminal
    event; [extract_content] emits no event at all, whatever it returns. *)
Theorem lifecycle_events_missing (this : ActionBuilder.t) (input : value) (h : History)
    (page : Page.t) (node : DOMElementNode) :
  resolves this h (click_todo input) (get_prop input "index") page (Some node) ->
  PageMethods.isFileUploader (pages this)
    (rev_append (lookup_trace (click_todo input) page) h) page node = returned true ->
  (exists (r : ActionResult) (t : Trace),
     clickElement this input h = (returned r, t)
     /\ events t = [ (ACT_START, click_todo input) ])
  /\ (forall (input' : value) (h' : History),
        events (extractContent this input' h').2 = []).
Proof.
  intros Hres Hup. split.
  - eexists _, _. split; [exact (clickElement_file_uploader this input h page node Hres Hup)|].
    reflexivity.
  - intros input' h'. apply extractContent_no_events.
Qed.

Lemma lifecycle_events_missing_witness :
  (exists (r : ActionResult) (t : Trace),
     clickElement Demo.healthy (VObj [("index", VNum 2)]) [] = (returned r, t)
     /\ events t = [ (ACT_START, VStr "Click element with index 2") ])
  /\ (forall (input' : value) (h' : History),
        events (extractContent Demo.healthy input' h').2 = []).
Proof.
  apply (lifecycle_events_missing Demo.healthy (VObj [("index", VNum 2)]) []
           Demo.page Demo.uploader).
  - exists (Some Demo.state). split; [reflexivity|]. split; reflexivity.
  - reflexivity.
Defined.

(** ** [close_tab] *)

(** The three falsy shapes of [tab_id] that a caller can send. *)
Lemma absent_null_zero_falsy (input : value) :
  get_prop input "tab_id" = VUndefined
  \/ get_prop input "tab_id" = VNull
  \/ get_prop input "tab_id" = VNum 0 ->
  truthy (get_prop input "tab_id") = false.
Proof. intros [-> | [-> | ->]]; reflexivity. Qed.

(** C10.  With a falsy [tab_id] (absent, [null] or 0), [close_tab] first asks
    for the current page; the only [closeTab] call it makes has that page's
    tab id as its argument, and the input's [tab_id] is not passed on.  If the
    current page cannot be obtained, the handler throws before any event. *)
Theorem close_tab_falsy_id (this : ActionBuilder.t) (input : value) (h : History) :
  truthy (get_prop input "tab_id") = false ->
  match BrowserContext.getCurrentPage (browser this) h true with
  | inl e => closeTab this input h = (threw e, [Called (CGetCurrentPage true)])
  | inr page =>
      exists (r : Thrown + ActionResult) (t : Trace),
        closeTab this input h = (r, t)
        /\ calls t = [ CGetCurrentPage true; CCloseTab (VNum (Page.tabId page)) ]
        /\ head (events t)
           = Some (ACT_START, VStr ("Closing current tab " +:+ pretty (Page.tabId page)))
  end.
Proof.
  intros Hfalsy. unfold browser, closeTab. rewrite Hfalsy. run.
  destruct (BrowserContext.getCurrentPage _ _ _) as [e|page]; run; [reflexivity|].
  destruct (BrowserContext.closeTab _ _ _) as [e|[]]; eexists _, _; repeat split.
Qed.

Lemma close_tab_falsy_id_witness :
  exists (r : Thrown + ActionResult) (t : Trace),
    closeTab Demo.healthy (VObj [("tab_id", VNum 0)]) [] = (r, t)
    /\ calls t = [ CGetCurrentPage true; CCloseTab (VNum 7) ]
    /\ head (events t) = Some (ACT_START, VStr "Closing current tab 7").
Proof.
  apply (close_tab_falsy_id Demo.healthy (VObj [("tab_id", VNum 0)]) []).
  reflexivity.
Defined.

(** ** [Action.call] *)

(** C5.  When the schema of an action is not the empty object schema and the
    raw input does not parse against it, [call] throws an [InvalidInputError]
    whose message is the validator's; the outcome does not depend on the
    handler, which is not run, and no effect is performed. *)
Theorem call_invalid_input (this : Action.t) (input : value) (h : History)
    (error : z.ZodError) :
  Action.isEmptySchema (ActionSchema.schema (Action.schema this)) = false ->
  z.safeParse (ActionSchema.schema (Action.schema this)) input = z.failure error ->
  Action.call this input h = (threw (ThrownError InvalidInputError (z.message error)), [])
  /\ InvalidInputError <> Error.
Proof.
  intros Hnonempty Hparse. split; [|discriminate].
  unfold Action.call. rewrite Hnonempty, Hparse. reflexivity.
Qed.

Lemma call_invalid_input_witness :
  Action.call Examples.click (VObj [("index", VStr "first")]) [] =
    (threw (ThrownError InvalidInputError (z.message Examples.index_expected_number)), [])
  /\ InvalidInputError <> Error.
Proof.
  apply (call_invalid_input Examples.click (VObj [("index", VStr "first")]) []
           Examples.index_expected_number); reflexivity.
Defined.

(** C6.  When the schema of an action is an object schema with no field,
    [call] does not look at its input: the handler runs on the empty object,
    so every input gives what [call({})] gives. *)
Theorem call_empty_schema (this : Action.t) (input : value) (h : History) :
  z._def (ActionSchema.schema (Action.schema this)) = z.ZodObject [] ->
  Action.call this input h = Action.handler this empty_object h
  /\ Action.call this input h = Action.call this empty_object h.
Proof.
  intros Hempty.
  assert (Hcall : forall v, Action.call this v h = Action.handler this empty_object h).
  { intros v. unfold Action.call, Action.isEmptySchema, z.is_ZodObject, z.shape.
    rewrite Hempty. reflexivity. }
  by rewrite !Hcall.
Qed.

Lemma call_empty_schema_witness :
  let input := VObj [("index", VStr "first"); ("url", VNum 3)] in
  Action.call Examples.back input [] = Action.handler Examples.back empty_object []
  /\ Action.call Examples.back input [] = Action.call Examples.back empty_object [].
Proof.
  intros input. apply (call_empty_schema Examples.back input []). reflexivity.
Defined.

(** ** [Action.getIndexArg] *)

(** The reading of C8 that the code refutes: a result other than a number
    only when it is [null].  An [index] field that holds a string is returned
    as it is. *)
Lemma getIndexArg_returns_non_numeric_index :
  Action.hasIndex Examples.click = true
  /\ Action.getIndexArg Examples.click (VObj [("index", VStr "first")]) = VStr "first"
  /\ spec_elementIndexOf (VObj [("index", VStr "first")]) = VNull
  /\ Action.getIndexArg Examples.click (VObj [("index", VStr "first")])
     <> spec_elementIndexOf (VObj [("index", VStr "first")]).
Proof. repeat split. discriminate. Qed.

(** C8, as amended.  For an action declared with [hasIndex], [getIndexArg]
    returns the value of the input's [index] property when the input is an
    object that has one, whatever that value is, and [null] in every other
    case; on an input whose [index] is a number or is missing this is what the
    specification asks for.  The helper is a function of the declaration and
    of the input alone. *)
Theorem getIndexArg_spec (this : Action.t) (input : value) :
  Action.hasIndex this = true ->
  Action.getIndexArg this input =
    match input with
    | VObj fields => default VNull (assoc "index" fields)
    | _ => VNull
    end
  /\ (forall n : Z, get_prop input "index" = VNum n ->
      Action.getIndexArg this input = VNum n)
  /\ (has_prop "index" input = false -> Action.getIndexArg this input = VNull)
  /\ ((exists n : Z, get_prop input "index" = VNum n) \/ has_prop "index" input = false ->
      Action.getIndexArg this input = spec_elementIndexOf input).
Proof.
  intros Hindex.
  assert (Hcode : Action.getIndexArg this input =
                  match input with
                  | VObj fields => default VNull (assoc "index" fields)
                  | _ => VNull
                  end).
  { unfold Action.getIndexArg. rewrite Hindex.
    destruct input as [| | b | n | s | fields | items]; simpl; try reflexivity.
    - destruct b; reflexivity.
    - destruct (Z.eqb n 0); reflexivity.
    - destruct (String.eqb s EmptyString); reflexivity.
    - destruct (assoc "index" fields); reflexivity. }
  split; [exact Hcode|]. rewrite Hcode. clear Hcode.
  destruct input as [| | b | n | s | fields | items]; simpl;
    try (repeat split; first [discriminate | reflexivity | by intros [[? ?]|?]]).
  destruct (assoc "index" fields) as [v|] eqn:Hassoc; simpl.
  - split; [intros n ->; reflexivity|]. split.
    + intros Hno. discriminate Hno.
    + intros [[n ->] | Hno]; [reflexivity | discriminate Hno].
  - repeat split; discriminate.
Qed.

Lemma getIndexArg_spec_witness :
  Action.getIndexArg Examples.click (VObj [("index", VNum 5)]) = VNum 5
  /\ Action.getIndexArg Examples.click (VObj [("index", VStr "first")]) = VStr "first"
  /\ Action.getIndexArg Examples.click (VStr "index") = VNull.
Proof.
  split; [|split].
  - exact (proj1 (getIndexArg_spec Examples.click (VObj [("index", VNum 5)]) eq_refl)).
  - exact (proj1 (getIndexArg_spec Examples.click (VObj [("index", VStr "first")]) eq_refl)).
  - exact (proj1 (getIndexArg_spec Examples.click (VStr "index") eq_refl)).
Defined.

(** ** [buildDynamicActionSchema] *)

Lemma set_prop_fresh {A : Type} (k : string) (v : A) (o : list (string * A)) :
  k ∉ map fst o -> z.set_prop k v o = o ++ [(k, v)].
Proof.
  induction o as [|[k' v'] o IH]; intros Hfresh; [reflexivity|].
  simpl in *. apply not_elem_of_cons in Hfresh as [Hne Hfresh].
  destruct (String.eqb_spec k k') as [->|_]; [done|]. by rewrite IH.
Qed.

Lemma extend_all (actions : list Action.t) :
  forall (d : option string) (acc : list (string * z.ZodType)),
    NoDup (map fst acc ++ map Action.name actions) ->
    fold_left
      (fun schema action =>
         z.extend schema
           [(Action.name action,
             z.describe (ActionSchema.description (Action.schema action))
               (z.nullable (ActionSchema.schema (Action.schema action))))])
      actions (z.Zod d (z.ZodObject acc))
    = z.Zod d (z.ZodObject (acc ++ map action_field actions)).
Proof.
  induction actions as [|a actions IH]; intros d acc Hnodup; simpl.
  - by rewrite app_nil_r.
  - unfold z.extend at 2. unfold z.spread. simpl.
    rewrite set_prop_fresh.
    + rewrite IH.
      * by rewrite <- app_assoc.
      * rewrite map_app, <- app_assoc. exact Hnodup.
    + apply NoDup_app in Hnodup as (_ & Hdisjoint & _).
      intros Hin. apply (Hdisjoint _ Hin). simpl. left.
Qed.

Lemma keep_all_but_proto_key (sh : list (string * z.ZodType)) :
  z.proto_key ∉ map fst sh ->
  List.filter (fun kv : string * z.ZodType => negb (String.eqb kv.1 z.proto_key)) sh = sh.
Proof.
  induction sh as [|[k t] sh IH]; intros Hfree; [reflexivity|].
  simpl in *. apply not_elem_of_cons in Hfree as [Hne Hfree].
  destruct (String.eqb_spec k z.proto_key) as [->|_]; [done|]. simpl. by rewrite IH.
Qed.

Lemma keys_action_fields (actions : list Action.t) :
  map fst (map action_field actions) = map Action.name actions.
Proof. by rewrite map_map. Qed.

Lemma buildDynamicActionSchema_shape (actions : list Action.t) :
  NoDup (map Action.name actions) ->
  z.proto_key ∉ map Action.name actions ->
  buildDynamicActionSchema actions =
    z.object (map (fun a => ((action_field a).1, z.optional (action_field a).2)) actions).
Proof.
  intros Hnodup Hfree. unfold buildDynamicActionSchema, z.object at 1.
  rewrite extend_all by exact Hnodup.
  unfold z.partial, z.object, z.shape. cbn [z._def z.description app].
  rewrite keep_all_but_proto_key by (by rewrite keys_action_fields).
  by rewrite map_map.
Qed.

Lemma optional_nullable_field (action : Action.t) :
  z.isOptional (z.optional (action_field action).2) = true
  /\ z.isNullable (z.optional (action_field action).2) = true.
Proof. split; reflexivity. Qed.

(** The reading of C7 that the code refutes: any list of N actions with
    distinct names would give N fields.  One action of the name [__proto__]
    gives a combined schema without any field: [extend] has the field, and
    [partial] loses it. *)
Lemma dynamic_schema_loses_proto_field :
  NoDup (map Action.name [Examples.proto])
  /\ length [Examples.proto] = 1%nat
  /\ z.shape (buildDynamicActionSchema [Examples.proto]) = []
  /\ length (z.shape (buildDynamicActionSchema [Examples.proto]))
     <> length [Examples.proto].
Proof.
  split; [apply NoDup_singleton|]. split; [reflexivity|]. split; [reflexivity|].
  discriminate.
Qed.

(** C7, as amended.  For actions with distinct names, none of them
    [__proto__], the combined schema is an object schema with as many fields as
    there are actions and the names of the actions as its keys; the field of an
    action is its own schema made nullable, described and optional, and so
    accepts both [undefined] and [null], whatever the action's schema itself
    requires. *)
Theorem dynamic_schema_fields (actions : list Action.t) :
  NoDup (map Action.name actions) ->
  z.proto_key ∉ map Action.name actions ->
  let combined := buildDynamicActionSchema actions in
  z.is_ZodObject combined = true
  /\ length (z.shape combined) = length actions
  /\ map fst (z.shape combined) ≡ₚ map Action.name actions
  /\ Forall (fun field => z.isOptional field.2 = true /\ z.isNullable field.2 = true)
       (z.shape combined)
  /\ (forall action, action ∈ actions ->
      assoc (Action.name action) (z.shape combined)
      = Some (z.optional
                (z.describe (ActionSchema.description (Action.schema action))
                   (z.nullable (ActionSchema.schema (Action.schema action)))))).
Proof.
  intros Hnodup Hfree combined. subst combined.
  rewrite (buildDynamicActionSchema_shape actions Hnodup Hfree). clear Hfree.
  unfold z.object, z.is_ZodObject, z.shape. simpl.
  split; [reflexivity|]. split; [by rewrite length_map|].
  split; [by rewrite map_map|]. split.
  - apply Forall_forall. intros field Hin.
    apply list_elem_of_fmap in Hin as (a & -> & _). apply optional_nullable_field.
  - induction actions as [|a actions IH]; intros action Hin.
    + by apply elem_of_nil in Hin.
    + simpl in *. apply NoDup_cons in Hnodup as [Hfresh Hnodup].
      apply elem_of_cons in Hin as [->|Hin].
      * by rewrite String.eqb_refl.
      * destruct (String.eqb_spec (Action.name action) (Action.name a)) as [Heq|_].
        -- destruct Hfresh. rewrite <- Heq. apply list_elem_of_fmap. by exists action.
        -- by apply IH.
Qed.

Lemma dynamic_schema_fields_witness :
  let actions := [Examples.click; Examples.back] in
  let combined := buildDynamicActionSchema actions in
  z.is_ZodObject combined = true
  /\ length (z.shape combined) = 2%nat
  /\ map fst (z.shape combined) ≡ₚ ["click_element"; "go_back"]
  /\ Forall (fun field => z.isOptional field.2 = true /\ z.isNullable field.2 = true)
       (z.shape combined)
  /\ (forall action, action ∈ actions ->
      assoc (Action.name action) (z.shape combined)
      = Some (z.optional
                (z.describe (ActionSchema.description (Action.schema action))
                   (z.nullable (ActionSchema.schema (Action.schema action)))))).
Proof.
  intros actions.
  apply (dynamic_schema_fields actions).
  - apply (bool_decide_unpack _). vm_compute. exact I.
  - apply (bool_decide_unpack _). vm_compute. exact I.
Defined.

(** ** The event protocol on the other paths *)

Lemma done_protocol (schemas : Schemas.t) : keeps_protocol (done schemas).
Proof. intros input h r t H. unfold done in H. settle_protocol H. Qed.

Lemma searchGoogle_protocol (this : ActionBuilder.t) : keeps_protocol (searchGoogle this).
Proof. intros input h r t H. unfold searchGoogle in H. settle_protocol H. Qed.

Lemma goToUrl_protocol (this : ActionBuilder.t) : keeps_protocol (goToUrl this).
Proof. intros input h r t H. unfold goToUrl in H. settle_protocol H. Qed.

Lemma goBack_protocol (this : ActionBuilder.t) : keeps_protocol (goBack this).
Proof. intros input h r t H. unfold goBack in H. settle_protocol H. Qed.

Lemma inputText_protocol (this : ActionBuilder.t) : keeps_protocol (inputText this).
Proof. intros input h r t H. unfold inputText in H. settle_protocol H. Qed.

Lemma switchTab_protocol (this : ActionBuilder.t) : keeps_protocol (switchTab this).
Proof. intros input h r t H. unfold switchTab in H. settle_protocol H. Qed.

Lemma openTab_protocol (this : ActionBuilder.t) : keeps_protocol (openTab this).
Proof. intros input h r t H. unfold openTab in H. settle_protocol H. Qed.

Lemma closeTab_protocol (this : ActionBuilder.t) : keeps_protocol (closeTab this).
Proof. intros input h r t H. unfold closeTab in H. settle_protocol H. Qed.

Lemma cacheContent_protocol (schemas : Schemas.t) : keeps_protocol (cacheContent schemas).
Proof. intros input h r t H. unfold cacheContent in H. settle_protocol H. Qed.

Lemma scrollDown_protocol (this : ActionBuilder.t) : keeps_protocol (scrollDown this).
Proof. intros input h r t H. unfold scrollDown in H. settle_protocol H. Qed.

Lemma scrollUp_protocol (this : ActionBuilder.t) : keeps_protocol (scrollUp this).
Proof. intros input h r t H. unfold scrollUp in H. settle_protocol H. Qed.

Lemma sendKeys_protocol (this : ActionBuilder.t) : keeps_protocol (sendKeys this).
Proof. intros input h r t H. unfold sendKeys in H. settle_protocol H. Qed.

Lemma scrollToText_protocol (this : ActionBuilder.t) : keeps_protocol (scrollToText this).
Proof. intros input h r t H. unfold scrollToText in H. settle_protocol H. Qed.

Lemma getDropdownOptions_protocol (this : ActionBuilder.t) :
  keeps_protocol (getDropdownOptions this).
Proof. intros input h r t H. unfold getDropdownOptions in H. settle_protocol H. Qed.

Lemma selectDropdownOption_protocol (this : ActionBuilder.t) :
  keeps_protocol (selectDropdownOption this).
Proof. intros input h r t H. unfold selectDropdownOption in H. settle_protocol H. Qed.

(** [click_element] keeps the protocol on every returning path but the
    file-uploader one, where the start event stays alone. *)
Lemma clickElement_protocol (this : ActionBuilder.t) (input : value) (h : History)
    (r : ActionResult) (t : Trace) :
  clickElement this input h = (returned r, t) ->
  bracketed t \/ events t = [ (ACT_START, click_todo input) ].
Proof.
  intros H. unfold clickElement in H. run in H. answers_in H; inversion H; subst;
    first [ right; reflexivity
          | left; eexists _, _, _; split; reflexivity ].
Qed.

(** The registry holds seventeen actions; all of them but [click_element]
    (the fifth) and [extract_content] (the tenth) keep the protocol on every
    invocation that returns. *)
Lemma registry_protocol (this : ActionBuilder.t) (schemas : Schemas.t)
    (i : nat) (action : Action.t) :
  buildDefaultActions this schemas !! i = Some action ->
  i <> 4%nat -> i <> 9%nat ->
  keeps_protocol (Action.handler action).
Proof.
  intros Hi Hclick Hextract. unfold buildDefaultActions, new_Action in Hi.
  do 17 (destruct i as [|i];
         [ try congruence; injection Hi as <-; simpl;
           auto using done_protocol, searchGoogle_protocol, goToUrl_protocol,
             goBack_protocol, inputText_protocol, switchTab_protocol, openTab_protocol,
             closeTab_protocol, cacheContent_protocol, scrollDown_protocol,
             scrollUp_protocol, sendKeys_protocol, scrollToText_protocol,
             getDropdownOptions_protocol, selectDropdownOption_protocol
         | ]).
  discriminate Hi.
Qed.

Lemma registry_length (this : ActionBuilder.t) (schemas : Schemas.t) :
  length (buildDefaultActions this schemas) = 17%nat.
Proof. reflexivity. Qed.

(** * Further properties of the handlers *)

(** ** [click_element], when the element is found *)

(** Once the element is found and the page has said whether it is a file
    uploader, [click_element] returns: whatever fails afterwards (reading the
    tab ids, the click, the switch to a new tab) is caught. *)
Theorem clickElement_returns_once_found (this : ActionBuilder.t) (input : value)
    (h : History) (page : Page.t) (node : DOMElementNode) (uploader : bool) :
  resolves this h (click_todo input) (get_prop input "index") page (Some node) ->
  PageMethods.isFileUploader (pages this)
    (rev_append (lookup_trace (click_todo input) page) h) page node = returned uploader ->
  exists (r : ActionResult) (t : Trace), clickElement this input h = (returned r, t).
Proof.
  intros (state & Hpage & Hstate & Hnode) Hup. unfold_context. simpl in Hup.
  unfold clickElement. run. answer Hpage. answer Hstate. answer Hnode. answer Hup.
  destruct uploader; run; [by eexists _, _|].
  branches; by eexists _, _.
Qed.

Lemma clickElement_returns_once_found_witness :
  exists (r : ActionResult) (t : Trace),
    clickElement (Demo.builder true false false) (VObj [("index", VNum 1)]) []
    = (returned r, t).
Proof.
  apply (clickElement_returns_once_found (Demo.builder true false false)
           (VObj [("index", VNum 1)]) [] Demo.page Demo.button false).
  - exists (Some Demo.state). split; [reflexivity|]. split; reflexivity.
  - reflexivity.
Defined.

(** When the click goes through and the set of tab ids has not grown,
    [click_element] switches to no tab and reports the click. *)
Theorem click_without_new_tab (this : ActionBuilder.t) (input : value) (h : History)
    (page : Page.t) (node : DOMElementNode) (initial current : list Z) :
  let index := get_prop input "index" in
  let vision := AgentContext.useVision (ActionBuilder.context this) in
  click_goes_through this input h page node initial current ->
  (length current <= length initial)%nat ->
  clickElement this input h =
    (returned (new_ActionResult
                 [extractedContent_ (VStr (clicked_msg index node)); includeInMemory_ true]),
     click_trace input page node vision
     ++ [ Emitted NAVIGATOR ACT_OK (VStr (clicked_msg index node)) ]).
Proof.
  intros index vision ((state & Hpage & Hstate & Hnode) & Hup & Hinit & Hclick & Hcur) Hle.
  subst index vision. unfold_context. unfold clicked_msg in *. simpl in Hup, Hinit, Hclick, Hcur.
  unfold clickElement. run.
  answer Hpage. answer Hstate. answer Hnode. answer Hup. answer Hinit. answer Hclick.
  answer Hcur.
  apply Nat.ltb_ge in Hle. rewrite Hle. reflexivity.
Qed.

Lemma click_without_new_tab_witness :
  clickElement Demo.healthy (VObj [("index", VNum 1)]) [] =
    (returned (new_ActionResult
                 [extractedContent_ (VStr "Clicked button with index 1: Go");
                  includeInMemory_ true]),
     click_trace (VObj [("index", VNum 1)]) Demo.page Demo.button false
     ++ [ Emitted NAVIGATOR ACT_OK (VStr "Clicked button with index 1: Go") ]).
Proof.
  apply (click_without_new_tab Demo.healthy (VObj [("index", VNum 1)]) []
           Demo.page Demo.button [7] [7]).
  - split; [exists (Some Demo.state); split; [reflexivity|]; split; reflexivity|].
    split; [reflexivity|]. split; [reflexivity|]. split; reflexivity.
  - simpl. lia.
Defined.

(** When the click goes through and the set of tab ids has grown,
    [click_element] looks for the first id that was not there before.  It
    switches to that tab, without a background argument, unless the id is 0,
    which the test [if (newTabId)] takes for no id; either way the result
    says that a new tab was opened.  The id it switches to is one of the
    current ids and none of the initial ones. *)
Theorem click_switches_to_new_tab (this : ActionBuilder.t) (input : value) (h : History)
    (page : Page.t) (node : DOMElementNode) (initial current : list Z) (newTabId : Z) :
  let index := get_prop input "index" in
  let vision := AgentContext.useVision (ActionBuilder.context this) in
  let msg := clicked_msg index node +:+ " - " +:+ new_tab_msg in
  let h8 := Logged log_info new_tab_msg
            :: rev_append (click_trace input page node vision) h in
  click_goes_through this input h page node initial current ->
  (length initial < length current)%nat ->
  first_new_tab initial current = Some newTabId ->
  (newTabId <> 0 ->
   BrowserContext.switchTab (browser this) h8 (VNum newTabId) None = returned tt) ->
  clickElement this input h =
    (returned (new_ActionResult [extractedContent_ (VStr msg); includeInMemory_ true]),
     click_trace input page node vision
     ++ [ Logged log_info new_tab_msg ]
     ++ (if Z.eqb newTabId 0 then [] else [ Called (CSwitchTab (VNum newTabId) None) ])
     ++ [ Emitted NAVIGATOR ACT_OK (VStr msg) ])
  /\ newTabId ∈ current
  /\ newTabId ∉ initial.
Proof.
  intros index vision msg h8
    ((state & Hpage & Hstate & Hnode) & Hup & Hinit & Hclick & Hcur) Hlt Hfind Hswitch.
  subst index vision msg h8.
  unfold click_trace, new_tab_msg in *. unfold_context. unfold clicked_msg in *.
  simpl in Hup, Hinit, Hclick, Hcur, Hswitch.
  split.
  - unfold clickElement. run.
    answer Hpage. answer Hstate. answer Hnode. answer Hup. answer Hinit. answer Hclick.
    answer Hcur.
    apply Nat.ltb_lt in Hlt. rewrite Hlt. run.
    unfold first_new_tab in Hfind. rewrite Hfind. unfold truthy.
    destruct (Z.eqb_spec newTabId 0) as [Hzero|Hnonzero]; cbn [negb]; run; [reflexivity|].
    rewrite (Hswitch Hnonzero). reflexivity.
  - unfold first_new_tab in Hfind. apply find_some in Hfind as [Hin Hnew].
    split; [by apply list_elem_of_In|].
    apply negb_true_iff, bool_decide_eq_false in Hnew. exact Hnew.
Qed.

Lemma click_switches_to_new_tab_witness :
  let input := VObj [("index", VNum 1)] in
  let msg := "Clicked button with index 1: Go - New tab opened - switching to it" in
  clickElement NewTab.builder input [] =
    (returned (new_ActionResult [extractedContent_ (VStr msg); includeInMemory_ true]),
     click_trace input Demo.page Demo.button false
     ++ [ Logged log_info new_tab_msg; Called (CSwitchTab (VNum 8) None);
          Emitted NAVIGATOR ACT_OK (VStr msg) ])
  /\ 8 ∈ [7; 8]
  /\ 8 ∉ [7].
Proof.
  intros input msg.
  apply (click_switches_to_new_tab NewTab.builder input [] Demo.page Demo.button
           [7] [7; 8] 8).
  - split; [exists (Some Demo.state); split; [reflexivity|]; split; reflexivity|].
    split; [reflexivity|]. split; [reflexivity|]. split; reflexivity.
  - simpl. lia.
  - reflexivity.
  - reflexivity.
Defined.

(** ** [input_text] *)

(** On an element that is found, [input_text] has no recovery of its own: an
    exception of the typing is thrown on, after the start event and without a
    terminal event; otherwise the handler reports what it typed where. *)
Theorem inputText_outcomes (this : ActionBuilder.t) (input : value) (h : History)
    (page : Page.t) (node : DOMElementNode) :
  let index := get_prop input "index" in
  let text := get_prop input "text" in
  let vision := AgentContext.useVision (ActionBuilder.context this) in
  let typed := lookup_trace (input_todo input) page
               ++ [ Called (CInputTextElementNode page vision node text) ] in
  let msg := "Input " +:+ to_str text +:+ " into index " +:+ to_str index in
  resolves this h (input_todo input) index page (Some node) ->
  match PageMethods.inputTextElementNode (pages this)
          (rev_append (lookup_trace (input_todo input) page) h) page vision node text with
  | inl e => inputText this input h = (threw e, typed)
  | inr _ =>
      inputText this input h =
        (returned (new_ActionResult [extractedContent_ (VStr msg); includeInMemory_ true]),
         typed ++ [ Emitted NAVIGATOR ACT_OK (VStr msg) ])
  end.
Proof.
  intros index text vision typed msg (state & Hpage & Hstate & Hnode).
  subst index text vision typed msg. unfold_context. simpl.
  unfold inputText. run. answer Hpage. answer Hstate. answer Hnode.
  destruct (PageMethods.inputTextElementNode _ _ _ _ _ _) as [e|[]]; reflexivity.
Qed.

Lemma inputText_outcomes_witness :
  inputText Demo.healthy (VObj [("index", VNum 1); ("text", VStr "hello")]) [] =
    (returned (new_ActionResult
                 [extractedContent_ (VStr "Input hello into index 1"); includeInMemory_ true]),
     [ Emitted NAVIGATOR ACT_START (VStr "Input text into index 1");
       Called (CGetCurrentPage true);
       Called (CGetState Demo.page);
       Called (CInputTextElementNode Demo.page false Demo.button (VStr "hello"));
       Emitted NAVIGATOR ACT_OK (VStr "Input hello into index 1") ]).
Proof.
  apply (inputText_outcomes Demo.healthy
           (VObj [("index", VNum 1); ("text", VStr "hello")]) [] Demo.page Demo.button).
  exists (Some Demo.state). split; [reflexivity|]. split; reflexivity.
Defined.

(** ** [scroll_to_text] *)

(** Only a failure to obtain the current page makes [scroll_to_text] throw.
    A text that is not found is no failure: the result has [error] unset and
    says so, under an [ACT_OK] event.  An exception of the scrolling becomes a
    result with [error] set, under [ACT_FAIL]. *)
Theorem scrollToText_outcomes (this : ActionBuilder.t) (input : value) (h : History) :
  let text := get_prop input "text" in
  let h1 := Emitted NAVIGATOR ACT_START (scroll_todo input) :: h in
  match BrowserContext.getCurrentPage (browser this) h1 true with
  | inl e =>
      scrollToText this input h =
        (threw e, [ Emitted NAVIGATOR ACT_START (scroll_todo input);
                    Called (CGetCurrentPage true) ])
  | inr page =>
      let asked := [ Emitted NAVIGATOR ACT_START (scroll_todo input);
                     Called (CGetCurrentPage true);
                     Called (CScrollToText page text) ] in
      let reported (msg : string) :=
        (returned (new_ActionResult [extractedContent_ (VStr msg); includeInMemory_ true]),
         asked ++ [ Emitted NAVIGATOR ACT_OK (VStr msg) ]) in
      match PageMethods.scrollToText (pages this)
              (Called (CGetCurrentPage true) :: h1) page text with
      | inl e =>
          let msg := "Failed to scroll to text: " +:+ error_text e in
          scrollToText this input h =
            (returned (new_ActionResult [error_ msg; includeInMemory_ true]),
             asked ++ [ Emitted NAVIGATOR ACT_FAIL (VStr msg) ])
      | inr true =>
          scrollToText this input h = reported ("Scrolled to text: " +:+ to_str text)
      | inr false =>
          scrollToText this input h =
            reported ("Text '" +:+ to_str text +:+ "' not found or not visible on page")
      end
  end.
Proof.
  intros text h1. subst text h1. unfold browser, pages, scroll_todo, scrollToText. run.
  destruct (BrowserContext.getCurrentPage _ _ _) as [e|page]; run; [reflexivity|].
  destruct (PageMethods.scrollToText _ _ _ _) as [e|[]]; reflexivity.
Qed.

(** ** [get_dropdown_options] *)

(** On an element that is found, [get_dropdown_options] never throws.  It
    prints one line per option, the text of each as JSON, and counts the
    options in its [ACT_OK] event; no array or an empty one is reported as a
    success without options; an exception of the page becomes a result with
    [error] set. *)
Theorem getDropdownOptions_outcomes (this : ActionBuilder.t) (input : value) (h : History)
    (page : Page.t) (node : DOMElementNode) :
  let index := get_prop input "index" in
  let asked := lookup_trace (options_todo input) page
               ++ [ Called (CGetDropdownOptions page index) ] in
  resolves this h (options_todo input) index page (Some node) ->
  match PageMethods.getDropdownOptions (pages this)
          (rev_append (lookup_trace (options_todo input) page) h) page index with
  | inl e =>
      let errorMsg := "Failed to get dropdown options: " +:+ error_text e in
      getDropdownOptions this input h =
        (returned (new_ActionResult [error_ errorMsg; includeInMemory_ true]),
         asked ++ [ Logged log_error errorMsg; Emitted NAVIGATOR ACT_FAIL (VStr errorMsg) ])
  | inr (Some (opt :: opts)) =>
      let msg := join newline (map option_line (opt :: opts)) +:+ newline
                 +:+ "Use the exact text string in select_dropdown_option" in
      getDropdownOptions this input h =
        (returned (new_ActionResult [extractedContent_ (VStr msg); includeInMemory_ true]),
         asked ++ [ Logged log_info msg;
                    Emitted NAVIGATOR ACT_OK
                      (VStr ("Got " +:+ pretty (Z.of_nat (S (length opts)))
                             +:+ " options from dropdown")) ])
  | inr _ =>
      let msg := "No options found in dropdown" in
      getDropdownOptions this input h =
        (returned (new_ActionResult [extractedContent_ (VStr msg); includeInMemory_ true]),
         asked ++ [ Logged log_info msg; Emitted NAVIGATOR ACT_OK (VStr msg) ])
  end.
Proof.
  intros index asked (state & Hpage & Hstate & Hnode).
  subst index asked. unfold_context. simpl.
  unfold getDropdownOptions. run. answer Hpage. answer Hstate. answer Hnode.
  destruct (PageMethods.getDropdownOptions _ _ _ _) as [e|[[|opt opts]|]]; reflexivity.
Qed.

Lemma getDropdownOptions_outcomes_witness :
  let msg := "0: text=" +:+ dquote +:+ "Red" +:+ dquote +:+ newline
             +:+ "Use the exact text string in select_dropdown_option" in
  getDropdownOptions Demo.healthy (VObj [("index", VNum 3)]) [] =
    (returned (new_ActionResult [extractedContent_ (VStr msg); includeInMemory_ true]),
     [ Emitted NAVIGATOR ACT_START (VStr "Getting options from dropdown with index 3");
       Called (CGetCurrentPage true);
       Called (CGetState Demo.page);
       Called (CGetDropdownOptions Demo.page (VNum 3));
       Logged log_info msg;
       Emitted NAVIGATOR ACT_OK (VStr "Got 1 options from dropdown") ]).
Proof.
  intros msg.
  apply (getDropdownOptions_outcomes Demo.healthy (VObj [("index", VNum 3)]) []
           Demo.page Demo.dropdown).
  exists (Some Demo.state). split; [reflexivity|]. split; reflexivity.
Defined.

(** ** [select_dropdown_option] *)

(** On an element that is not a [select] (its tag name is missing, empty, or
    anything else once lower-cased), [select_dropdown_option] asks the page
    for nothing more: it returns a result whose [error] names the tag, or
    [unknown]. *)
Theorem selectDropdownOption_not_a_select (this : ActionBuilder.t) (input : value)
    (h : History) (page : Page.t) (node : DOMElementNode) :
  let index := get_prop input "index" in
  resolves this h (select_todo input) index page (Some node) ->
  (forall tag : string, tagName node = Some tag -> toLowerCase tag <> "select") ->
  selectDropdownOption this input h =
    (returned (new_ActionResult [error_ (not_a_select_msg index node); includeInMemory_ true]),
     lookup_trace (select_todo input) page
     ++ [ Logged log_error (not_a_select_msg index node);
          Emitted NAVIGATOR ACT_FAIL (VStr (not_a_select_msg index node)) ]).
Proof.
  intros index (state & Hpage & Hstate & Hnode) Htag.
  subst index. unfold_context. unfold not_a_select_msg.
  unfold selectDropdownOption. run. answer Hpage. answer Hstate. answer Hnode.
  assert (Hnot : not_a_select (tagName node) = true).
  { unfold not_a_select. destruct (tagName node) as [tag|]; [|reflexivity].
    destruct (String.eqb tag EmptyString); [reflexivity|]. simpl.
    apply negb_true_iff, String.eqb_neq. by apply Htag. }
  rewrite Hnot. reflexivity.
Qed.

Lemma selectDropdownOption_not_a_select_witness :
  let msg := "Cannot select option: Element with index 1 is a button, not a SELECT" in
  selectDropdownOption Demo.healthy (VObj [("index", VNum 1); ("text", VStr "Red")]) [] =
    (returned (new_ActionResult [error_ msg; includeInMemory_ true]),
     lookup_trace (select_todo (VObj [("index", VNum 1); ("text", VStr "Red")])) Demo.page
     ++ [ Logged log_error msg; Emitted NAVIGATOR ACT_FAIL (VStr msg) ]).
Proof.
  intros msg.
  apply (selectDropdownOption_not_a_select Demo.healthy
           (VObj [("index", VNum 1); ("text", VStr "Red")]) [] Demo.page Demo.button).
  - exists (Some Demo.state). split; [reflexivity|]. split; reflexivity.
  - intros tag [= <-]. discriminate.
Defined.

(** On an element whose tag name is [select] in any letter case,
    [select_dropdown_option] passes the index and the text on to the page as
    they are.  What the page answers is the content of the result; what it
    throws becomes a result with [error] set.  The handler does not throw. *)
Theorem selectDropdownOption_on_select (this : ActionBuilder.t) (input : value)
    (h : History) (page : Page.t) (node : DOMElementNode) (tag : string) :
  let index := get_prop input "index" in
  let text := get_prop input "text" in
  let debugged :=
    [ Logged log_debug ("Attempting to select '" +:+ to_str text +:+ "' using xpath: "
                        +:+ string_or_null (xpath node));
      Logged log_debug ("Element attributes: " +:+ json_string_record (attributes node));
      Logged log_debug ("Element tag: " +:+ tag) ] in
  let asked := lookup_trace (select_todo input) page ++ debugged
               ++ [ Called (CSelectDropdownOption page index text) ] in
  resolves this h (select_todo input) index page (Some node) ->
  tagName node = Some tag ->
  toLowerCase tag = "select" ->
  match PageMethods.selectDropdownOption (pages this)
          (rev_append (lookup_trace (select_todo input) page ++ debugged) h)
          page index text with
  | inl e =>
      let errorMsg := "Failed to select option: " +:+ error_text e in
      selectDropdownOption this input h =
        (returned (new_ActionResult [error_ errorMsg; includeInMemory_ true]),
         asked ++ [ Logged log_error errorMsg; Emitted NAVIGATOR ACT_FAIL (VStr errorMsg) ])
  | inr result =>
      let msg := "Selected option " +:+ dquote +:+ to_str text +:+ dquote
                 +:+ " from dropdown with index " +:+ to_str index in
      selectDropdownOption this input h =
        (returned (new_ActionResult [extractedContent_ (VStr result); includeInMemory_ true]),
         asked ++ [ Logged log_info msg; Emitted NAVIGATOR ACT_OK (VStr msg) ])
  end.
Proof.
  intros index text debugged asked (state & Hpage & Hstate & Hnode) Htag Hselect.
  subst index text debugged asked. unfold_context. simpl.
  unfold selectDropdownOption. run. answer Hpage. answer Hstate. answer Hnode.
  assert (Hnot : not_a_select (tagName node) = false).
  { rewrite Htag. unfold not_a_select. rewrite Hselect.
    destruct tag; [discriminate Hselect | reflexivity]. }
  rewrite Hnot, Htag. run. unfold string_or_null at 2. simpl.
  destruct (PageMethods.selectDropdownOption _ _ _ _ _) as [e|result]; reflexivity.
Qed.

Lemma selectDropdownOption_on_select_witness :
  exists t : Trace,
    selectDropdownOption Demo.healthy (VObj [("index", VNum 3); ("text", VStr "Red")]) [] =
      (returned (new_ActionResult
                   [extractedContent_ (VStr "Selected Red"); includeInMemory_ true]), t)
    /\ CSelectDropdownOption Demo.page (VNum 3) (VStr "Red") ∈ calls t.
Proof.
  eexists. split.
  - apply (selectDropdownOption_on_select Demo.healthy
             (VObj [("index", VNum 3); ("text", VStr "Red")]) [] Demo.page Demo.dropdown
             "SELECT").
    + exists (Some Demo.state). split; [reflexivity|]. split; reflexivity.
    + reflexivity.
    + reflexivity.
  - simpl. set_solver.
Defined.

(** ** [close_tab] with a tab id *)

(** With a truthy [tab_id], [close_tab] closes that tab and none other: its
    only call to the driver is [closeTab(tab_id)], the current page is not
    asked for, and an exception of the driver is thrown on after the start
    event. *)
Theorem close_tab_given_id (this : ActionBuilder.t) (input : value) (h : History) :
  let tabId := get_prop input "tab_id" in
  let start := Emitted NAVIGATOR ACT_START (VStr ("Closing tab " +:+ to_str tabId)) in
  truthy tabId = true ->
  match BrowserContext.closeTab (browser this) (start :: h) tabId with
  | inl e => closeTab this input h = (threw e, [ start; Called (CCloseTab tabId) ])
  | inr _ =>
      let msg := "Closed tab " +:+ to_str tabId in
      closeTab this input h =
        (returned (new_ActionResult [extractedContent_ (VStr msg); includeInMemory_ true]),
         [ start; Called (CCloseTab tabId); Emitted NAVIGATOR ACT_OK (VStr msg) ])
  end.
Proof.
  intros tabId start Htruthy. subst tabId start. unfold browser, closeTab.
  rewrite Htruthy. run.
  destruct (BrowserContext.closeTab _ _ _) as [e|[]]; reflexivity.
Qed.

Lemma close_tab_given_id_witness :
  closeTab Demo.healthy (VObj [("tab_id", VNum 4)]) [] =
    (returned (new_ActionResult [extractedContent_ (VStr "Closed tab 4"); includeInMemory_ true]),
     [ Emitted NAVIGATOR ACT_START (VStr "Closing tab 4");
       Called (CCloseTab (VNum 4));
       Emitted NAVIGATOR ACT_OK (VStr "Closed tab 4") ]).
Proof.
  apply (close_tab_given_id Demo.healthy (VObj [("tab_id", VNum 4)]) []). reflexivity.
Defined.

(** ** What holds of every registered action *)

(** The handlers keep to the background.  Every call that carries a
    background flag ([navigateTo], [getCurrentPage], [openTab], [switchTab])
    carries [true], on every path of every registered action, with one
    exception: the switch that [click_element] makes to a tab its click has
    opened passes no flag.  That switch is to a non-zero tab id. *)
Theorem registry_keeps_to_background (this : ActionBuilder.t) (schemas : Schemas.t)
    (i : nat) (action : Action.t) (input : value) (h : History)
    (outcome : Thrown + ActionResult) (t : Trace) :
  buildDefaultActions this schemas !! i = Some action ->
  Action.handler action input h = (outcome, t) ->
  Forall (fun c => in_background c = true
                   \/ (i = 4%nat /\ exists n : Z, n <> 0 /\ c = CSwitchTab (VNum n) None))
    (calls t).
Proof.
  intros Hi. revert input h outcome t.
  each_action Hi i
    (intros input h outcome t H; paths_of H; simpl;
          repeat (apply Forall_cons; split;
                  [first [ left; reflexivity
                         | right; split; [reflexivity|]; eexists; split; [|reflexivity];
                           intros ->; discriminate ]|]);
          apply Forall_nil_2).
Qed.

Lemma registry_keeps_to_background_witness :
  Forall (fun c => in_background c = true
                   \/ (4%nat = 4%nat /\ exists n : Z, n <> 0 /\ c = CSwitchTab (VNum n) None))
    (calls (clickElement NewTab.builder (VObj [("index", VNum 1)]) []).2).
Proof.
  apply (registry_keeps_to_background NewTab.builder NewTab.schemas 4
           (new_Action (clickElement NewTab.builder) Examples.click_schema true)
           (VObj [("index", VNum 1)]) []
           (clickElement NewTab.builder (VObj [("index", VNum 1)]) []).1
           (clickElement NewTab.builder (VObj [("index", VNum 1)]) []).2);
    reflexivity.
Defined.

(** Only [done], the first action of the registry, marks the task as
    complete: it does so on every invocation, and no other registered action
    ever returns a result with [isDone] set. *)
Theorem registry_isDone (this : ActionBuilder.t) (schemas : Schemas.t)
    (i : nat) (action : Action.t) (input : value) (h : History)
    (r : ActionResult) (t : Trace) :
  buildDefaultActions this schemas !! i = Some action ->
  Action.handler action input h = (returned r, t) ->
  isDone r = bool_decide (i = 0%nat).
Proof.
  intros Hi. revert input h r t.
  each_action Hi i (intros input h r t H; paths_of H; reflexivity).
Qed.

Lemma registry_isDone_witness :
  isDone (new_ActionResult [isDone_ true; extractedContent_ (VStr "42")]) = true.
Proof.
  apply (registry_isDone Demo.healthy NewTab.schemas 0
           (new_Action (done NewTab.schemas) Examples.go_back_schema false)
           (VObj [("text", VStr "42")]) []
           (new_ActionResult [isDone_ true; extractedContent_ (VStr "42")])
           (done NewTab.schemas (VObj [("text", VStr "42")]) []).2);
    reflexivity.
Defined.

(** A result says that the action failed exactly when the handler has
    emitted [ACT_FAIL]: on every returning path of every registered action,
    [error] is set if and only if an [ACT_FAIL] event is among the events of
    the invocation. *)
Theorem registry_error_iff_fail_event (this : ActionBuilder.t) (schemas : Schemas.t)
    (i : nat) (action : Action.t) (input : value) (h : History)
    (r : ActionResult) (t : Trace) :
  buildDefaultActions this schemas !! i = Some action ->
  Action.handler action input h = (returned r, t) ->
  is_Some (error r) <-> ACT_FAIL ∈ phases t.
Proof.
  intros Hi. revert input h r t.
  each_action Hi i
    (intros input h r t H; paths_of H; unfold phases; simpl;
     (split;
      [ intros [msg Hmsg];
        first [ discriminate Hmsg
              | repeat first [apply list_elem_of_here | apply list_elem_of_further] ]
      | intros Hin;
        first [ by eexists
              | exfalso;
                repeat (apply elem_of_cons in Hin as [Hin|Hin]; [discriminate Hin|]);
                by apply elem_of_nil in Hin ] ])).
Qed.

Lemma registry_error_iff_fail_event_witness :
  let run := selectDropdownOption Demo.healthy
               (VObj [("index", VNum 1); ("text", VStr "Red")]) [] in
  exists r : ActionResult,
    run.1 = returned r /\ (is_Some (error r) <-> ACT_FAIL ∈ phases run.2).
Proof.
  intros run. eexists. split; [reflexivity|].
  apply (registry_error_iff_fail_event Demo.healthy NewTab.schemas 16
           (new_Action (selectDropdownOption Demo.healthy) Examples.click_schema true)
           (VObj [("index", VNum 1); ("text", VStr "Red")]) []);
    reflexivity.
Defined.

(** An exception never follows a terminal event: when a registered action
    throws, it has emitted no event or its start event alone, so the event
    stream never shows [ACT_OK] or [ACT_FAIL] for an invocation that threw. *)
Theorem registry_throw_before_terminal (this : ActionBuilder.t) (schemas : Schemas.t)
    (i : nat) (action : Action.t) (input : value) (h : History)
    (e : Thrown) (t : Trace) :
  buildDefaultActions this schemas !! i = Some action ->
  Action.handler action input h = (threw e, t) ->
  phases t = [] \/ phases t = [ACT_START].
Proof.
  intros Hi. revert input h e t.
  each_action Hi i
    (intros input h e t H; paths_of H; unfold phases; simpl;
     first [left; reflexivity | right; reflexivity]).
Qed.

Lemma registry_throw_before_terminal_witness :
  let run := inputText Demo.healthy (VObj [("index", VNum 9)]) [] in
  exists e : Thrown,
    run.1 = threw e /\ (phases run.2 = [] \/ phases run.2 = [ACT_START]).
Proof.
  intros run. eexists. split; [reflexivity|].
  apply (registry_throw_before_terminal Demo.healthy NewTab.schemas 5
           (new_Action (inputText Demo.healthy) Examples.click_schema true)
           (VObj [("index", VNum 9)]) []
           (ThrownError Error (does_not_exist (VNum 9))));
    reflexivity.
Defined.

(** Apart from [done], a registered action that returns gives either a
    content or an error, never both and never neither: [extractedContent] is
    unset exactly when [error] is set. *)
Theorem registry_content_or_error (this : ActionBuilder.t) (schemas : Schemas.t)
    (i : nat) (action : Action.t) (input : value) (h : History)
    (r : ActionResult) (t : Trace) :
  buildDefaultActions this schemas !! i = Some action ->
  i <> 0%nat ->
  Action.handler action input h = (returned r, t) ->
  extractedContent r = None <-> is_Some (error r).
Proof.
  intros Hi. revert input h r t.
  each_action Hi i
    (intros input h r t Hnot H; try congruence; paths_of H; simpl;
     (split;
      [ intros Hnone; first [discriminate Hnone | by eexists]
      | intros [msg Hmsg]; first [discriminate Hmsg | reflexivity] ])).
Qed.

Lemma registry_content_or_error_witness :
  let run := scrollToText Demo.healthy (VObj [("text", VStr "Pricing")]) [] in
  exists r : ActionResult,
    run.1 = returned r /\ (extractedContent r = None <-> is_Some (error r)).
Proof.
  intros run. eexists. split; [reflexivity|].
  apply (registry_content_or_error Demo.healthy NewTab.schemas 14
           (new_Action (scrollToText Demo.healthy) Examples.go_back_schema false)
           (VObj [("text", VStr "Pricing")]) []
           _ run.2); [reflexivity | lia | reflexivity].
Defined.

(** * The validator, the prompt and the combined schema *)

(** ** Facts about [parse] *)

Lemma parse_object (d : option string) (sh : list (string * z.ZodType))
    (p : list string) (fields : list (string * value)) :
  z.parse (z.Zod d (z.ZodObject sh)) p (VObj fields) =
    match parse_fields fields p sh with
    | ([], out) => inr (VObj out)
    | (errs, _) => inl errs
    end.
Proof.
  simpl.
  match goal with
  | |- match ?go sh with _ => _ end = _ =>
      assert (Hgo : forall l, go l = parse_fields fields p l)
  end.
  { induction l as [|[k tk] l IH]; [reflexivity|]. simpl. rewrite IH. reflexivity. }
  rewrite Hgo. reflexivity.
Qed.

(** A failed parse reports at least one issue. *)
Lemma parse_issues_nonempty : forall (t : z.ZodType) (p : list string) (v : value)
    (errs : list z.ZodIssue),
  z.parse t p v = inl errs -> errs <> [].
Proof.
  fix IH 1. intros [d def] p v errs.
  destruct def as [| | |sh|inner|inner].
  - destruct v; simpl; intros [= <-]; discriminate.
  - destruct v; simpl; intros [= <-]; discriminate.
  - destruct v; simpl; intros [= <-]; discriminate.
  - destruct v; try (simpl; intros [= <-]; discriminate).
    rewrite parse_object. destruct (parse_fields fields p sh) as [[|e es] out].
    + discriminate.
    + intros [= <-]. discriminate.
  - destruct v; simpl; try apply IH. discriminate.
  - destruct v; simpl; try apply IH. discriminate.
Qed.

(** Whether a parse succeeds, and with what data, does not depend on the path
    under which the issues would be reported. *)
Lemma parse_success_path : forall (t : z.ZodType) (p p' : list string) (v d : value),
  z.parse t p v = inr d -> z.parse t p' v = inr d.
Proof.
  fix IH 1. intros [ds def] p p' v d.
  destruct def as [| | |sh|inner|inner].
  - destruct v; simpl; congruence.
  - destruct v; simpl; congruence.
  - destruct v; simpl; congruence.
  - destruct v; try (simpl; congruence).
    rewrite !parse_object.
    assert (Hfields : forall out, parse_fields fields p sh = ([], out) ->
                                  parse_fields fields p' sh = ([], out)).
    { induction sh as [|[k tk] sh IHsh]; intros out; [done|]. simpl.
      destruct (parse_fields fields p sh) as [errs o] eqn:Hp.
      destruct (z.parse tk (p ++ [k]) _) as [errs_k|dk] eqn:Hk.
      - intros [= Happ <-]. apply app_eq_nil in Happ as [-> ->].
        by apply parse_issues_nonempty in Hk.
      - rewrite (IH tk _ (p' ++ [k]) _ _ Hk).
        destruct (_ || _); intros [= -> <-]; by rewrite (IHsh _ eq_refl). }
    destruct (parse_fields fields p sh) as [[|e es] out]; [|discriminate].
    intros [= <-]. by rewrite (Hfields _ eq_refl).
  - destruct v; simpl; try apply IH. congruence.
  - destruct v; simpl; try apply IH. congruence.
Qed.

Lemma parse_succeeds_path (t : z.ZodType) (p : list string) (v : value) :
  z.is_success (z.safeParse t v) = true <-> exists d, z.parse t p v = inr d.
Proof.
  unfold z.safeParse. split.
  - destruct (z.parse t [] v) as [errs|d] eqn:Hparse; [discriminate|].
    intros _. exists d. by apply (parse_success_path t [] p).
  - intros [d Hd]. by rewrite (parse_success_path t p [] v d Hd).
Qed.



(** ** Strings that occur in strings *)

Lemma append_nil_r (s : string) : s +:+ EmptyString = s.
Proof.
  induction s as [|c s IH]; [reflexivity|].
  change (String c (s +:+ EmptyString) = String c s). by rewrite IH.
Qed.

Lemma mentions_refl (s : string) : mentions s s.
Proof. exists EmptyString, EmptyString. by rewrite append_nil_r. Qed.

Lemma mentions_app_l (a b s : string) : mentions a s -> mentions (a +:+ b) s.
Proof.
  intros (pre & post & ->). exists pre, (post +:+ b). by rewrite !append_assoc.
Qed.

Lemma mentions_app_r (a b s : string) : mentions b s -> mentions (a +:+ b) s.
Proof.
  intros (pre & post & ->). exists (a +:+ pre), post. by rewrite !append_assoc.
Qed.

Lemma mentions_fold_acc (sep : string) (l : list string) :
  forall acc s, mentions acc s ->
    mentions (fold_left (fun acc x => acc +:+ sep +:+ x) l acc) s.
Proof.
  induction l as [|x l IH]; intros acc s Hacc; [exact Hacc|].
  simpl. apply IH. by apply mentions_app_l.
Qed.

Lemma mentions_join (sep : string) (l : list string) (s : string) :
  s ∈ l -> mentions (join sep l) s.
Proof.
  destruct l as [|x l]; intros Hin; [by apply elem_of_nil in Hin|]. simpl.
  apply elem_of_cons in Hin as [->|Hin].
  - apply mentions_fold_acc, mentions_refl.
  - revert x. induction l as [|y l IH]; intros x; [by apply elem_of_nil in Hin|].
    simpl. apply elem_of_cons in Hin as [->|Hin].
    + apply mentions_fold_acc, mentions_app_r, mentions_app_r, mentions_refl.
    + by apply IH.
Qed.

(** ** [Action.prompt] and [Action.call] in step *)




(** ** What the combined schema accepts *)

Lemma parse_dynamic_field (action : Action.t) (p : list string) (v : value) :
  z.parse (dynamic_field action).2 p v =
    match v with
    | VUndefined => inr VUndefined
    | VNull => inr VNull
    | _ => z.parse (ActionSchema.schema (Action.schema action)) p v
    end.
Proof. destruct v; reflexivity. Qed.

Lemma parse_fields_fit (fields : list (string * value)) (p : list string)
    (actions : list Action.t) :
  (parse_fields fields p (map dynamic_field actions)).1 = []
  <-> forall action, action ∈ actions ->
        fits action (get_prop (VObj fields) (Action.name action)) = true.
Proof.
  induction actions as [|a actions IH].
  - split; [intros _ action Hin; by apply elem_of_nil in Hin | reflexivity].
  - change (map dynamic_field (a :: actions))
      with ((Action.name a, (dynamic_field a).2) :: map dynamic_field actions).
    cbn [parse_fields].
    destruct (parse_fields fields p (map dynamic_field actions)) as [errs out].
    cbn [fst] in IH. rewrite parse_dynamic_field.
    assert (Hhead :
      match
        match default VUndefined (assoc (Action.name a) fields) with
        | VUndefined => inr VUndefined
        | VNull => inr VNull
        | _ => z.parse (ActionSchema.schema (Action.schema a)) (p ++ [Action.name a])
                 (default VUndefined (assoc (Action.name a) fields))
        end
      with
      | inl errs_k => errs_k <> [] /\ fits a (get_prop (VObj fields) (Action.name a)) = false
      | inr _ => fits a (get_prop (VObj fields) (Action.name a)) = true
      end).
    { unfold fits, get_prop.
      destruct (default VUndefined (assoc (Action.name a) fields)) eqn:Hv;
        try reflexivity;
        (destruct (z.parse _ _ _) as [errs_k|d] eqn:Hparse;
         [ split; [by apply parse_issues_nonempty in Hparse|];
           apply not_true_is_false; intros Hfit; cbn [nullish orb] in Hfit;
           apply (parse_succeeds_path _ (p ++ [Action.name a])) in Hfit as [d Hd];
           congruence
         | cbn [nullish orb]; apply (parse_succeeds_path _ (p ++ [Action.name a]));
           by exists d ]). }
    destruct (match default VUndefined (assoc (Action.name a) fields) with
              | VUndefined => inr VUndefined
              | VNull => inr VNull
              | _ => z.parse _ _ _
              end) as [errs_k|d].
    + destruct Hhead as [Hnonempty Hunfit]. cbn [fst]. split.
      * intros Happ. apply app_eq_nil in Happ as [-> _]. done.
      * intros Hall. rewrite (Hall a) in Hunfit; [discriminate | apply list_elem_of_here].
    + assert (Hrest : (if bool_decide (is_Some (assoc (Action.name a) fields))
                          || negb (is_undefined d)
                       then (errs, (Action.name a, d) :: out) else (errs, out)).1 = errs)
        by (by destruct (_ || _)).
      rewrite Hrest, IH. split.
      * intros Hall action Hin. apply elem_of_cons in Hin as [->|Hin]; [done|by apply Hall].
      * intros Hall action Hin. apply Hall. by apply list_elem_of_further.
Qed.

Lemma proto_key_inherited : z.proto_key ∈ object_prototype_keys.
Proof. apply (bool_decide_unpack _). vm_compute. exact I. Qed.

Lemma no_inherited_name_no_proto_key (actions : list Action.t) :
  (forall action, action ∈ actions -> Action.name action ∉ object_prototype_keys) ->
  z.proto_key ∉ map Action.name actions.
Proof.
  intros Hown Hin. apply list_elem_of_fmap in Hin as (a & Hname & Ha).
  apply (Hown a Ha). rewrite <- Hname. apply proto_key_inherited.
Qed.

(** For actions with distinct names, none of which is the name of a property
    that objects inherit, the combined schema accepts an input object exactly
    when the field of each action is absent, [null], or an input that the
    action's own schema accepts.  It accepts the empty object, and it accepts
    several actions at once: that only one action is chosen is not checked
    here. *)
Theorem dynamic_schema_accepts (actions : list Action.t) (fields : list (string * value)) :
  NoDup (map Action.name actions) ->
  (forall action, action ∈ actions -> Action.name action ∉ object_prototype_keys) ->
  z.is_success (z.safeParse (buildDynamicActionSchema actions) (VObj fields)) = true
  <-> forall action, action ∈ actions ->
        fits action (get_prop (VObj fields) (Action.name action)) = true.
Proof.
  intros Hnodup Hown.
  rewrite (buildDynamicActionSchema_shape actions Hnodup
             (no_inherited_name_no_proto_key actions Hown)).
  unfold z.safeParse, z.object. rewrite parse_object.
  rewrite <- (parse_fields_fit fields [] actions).
  change (map (fun a => ((action_field a).1, z.optional (action_field a).2)) actions)
    with (map dynamic_field actions).
  destruct (parse_fields fields [] (map dynamic_field actions)) as [[|e errs] out];
    simpl; split; congruence.
Qed.

Lemma dynamic_schema_accepts_witness :
  let actions := [Examples.click; Examples.back] in
  z.is_success (z.safeParse (buildDynamicActionSchema actions) (VObj [])) = true
  /\ z.is_success
       (z.safeParse (buildDynamicActionSchema actions)
          (VObj [("click_element", VObj [("index", VNum 1)]); ("go_back", VObj [])])) = true
  /\ z.is_success
       (z.safeParse (buildDynamicActionSchema actions)
          (VObj [("click_element", VObj [("index", VStr "first")])])) = false.
Proof.
  intros actions.
  assert (Hnames : NoDup (map Action.name actions))
    by (apply (bool_decide_unpack _); vm_compute; exact I).
  assert (Hall : forall (P : Action.t -> Prop),
             P Examples.click -> P Examples.back -> forall a, a ∈ actions -> P a).
  { intros P Hclick Hback a Hin.
    apply elem_of_cons in Hin as [->|Hin]; [exact Hclick|].
    apply elem_of_cons in Hin as [->|Hin]; [exact Hback|]. by apply elem_of_nil in Hin. }
  assert (Hown : forall a, a ∈ actions -> Action.name a ∉ object_prototype_keys)
    by (apply Hall; apply (bool_decide_unpack _); vm_compute; exact I).
  split; [|split].
  - apply (dynamic_schema_accepts actions [] Hnames Hown). apply Hall; reflexivity.
  - apply (dynamic_schema_accepts actions _ Hnames Hown). apply Hall; reflexivity.
  - apply not_true_is_false. intros Haccepted.
    pose proof (proj1 (dynamic_schema_accepts actions _ Hnames Hown) Haccepted
                  Examples.click (list_elem_of_here _ _)) as Hfit.
    discriminate Hfit.
Defined.

(** ** Actions of one name in the combined schema *)

Lemma assoc_app {A : Type} (k : string) (l1 l2 : list (string * A)) :
  assoc k (l1 ++ l2) = match assoc k l1 with Some v => Some v | None => assoc k l2 end.
Proof.
  induction l1 as [|[k' v'] l1 IH]; [reflexivity|]. simpl.
  by destruct (String.eqb k k').
Qed.

Lemma assoc_set_prop {A : Type} (k k' : string) (v : A) (o : list (string * A)) :
  assoc k' (z.set_prop k v o) = if String.eqb k' k then Some v else assoc k' o.
Proof.
  induction o as [|[k0 v0] o IH]; simpl.
  - by destruct (String.eqb k' k).
  - destruct (String.eqb_spec k k0) as [->|Hne]; simpl.
    + by destruct (String.eqb k' k0).
    + rewrite IH. destruct (String.eqb_spec k' k0) as [->|_]; [|reflexivity].
      destruct (String.eqb_spec k0 k) as [->|_]; [done|reflexivity].
Qed.

Lemma keys_set_prop {A : Type} (k : string) (v : A) (o : list (string * A)) :
  map fst (z.set_prop k v o) = if bool_decide (k ∈ map fst o) then map fst o
                               else map fst o ++ [k].
Proof.
  induction o as [|[k0 v0] o IH]; [reflexivity|]. simpl.
  destruct (String.eqb_spec k k0) as [->|Hne]; simpl.
  - rewrite bool_decide_eq_true_2; [reflexivity | apply list_elem_of_here].
  - rewrite IH. destruct (decide (k ∈ map fst o)) as [Hin|Hnotin].
    + rewrite !bool_decide_eq_true_2; [reflexivity | by apply list_elem_of_further | done].
    + rewrite !bool_decide_eq_false_2; [reflexivity | | done].
      intros Hin. apply elem_of_cons in Hin as [->|Hin]; done.
Qed.

Lemma assoc_key {A : Type} (k : string) (o : list (string * A)) :
  is_Some (assoc k o) <-> k ∈ map fst o.
Proof.
  induction o as [|[k0 v0] o IH]; simpl.
  - split; [by intros [? ?] | intros Hin; by apply elem_of_nil in Hin].
  - destruct (String.eqb_spec k k0) as [->|Hne].
    + split; [intros _; apply list_elem_of_here | by eexists].
    + rewrite IH. split; [apply list_elem_of_further|].
      intros Hin. apply elem_of_cons in Hin as [->|Hin]; done.
Qed.

Lemma assoc_map_value {A B : Type} (f : A -> B) (k : string) (o : list (string * A)) :
  assoc k (map (fun kv => (kv.1, f kv.2)) o) = f <$> assoc k o.
Proof.
  induction o as [|[k0 v0] o IH]; [reflexivity|]. simpl.
  by destruct (String.eqb k k0).
Qed.

Lemma extend_any (actions : list Action.t) :
  forall (d : option string) (acc : list (string * z.ZodType)),
    NoDup (map fst acc) ->
    exists sh : list (string * z.ZodType),
      fold_left
        (fun schema action =>
           z.extend schema
             [(Action.name action,
               z.describe (ActionSchema.description (Action.schema action))
                 (z.nullable (ActionSchema.schema (Action.schema action))))])
        actions (z.Zod d (z.ZodObject acc))
      = z.Zod d (z.ZodObject sh)
      /\ NoDup (map fst sh)
      /\ forall k, assoc k sh =
                   match assoc k (reverse (map action_field actions)) with
                   | Some v => Some v
                   | None => assoc k acc
                   end.
Proof.
  induction actions as [|a actions IH]; intros d acc Hnodup.
  - exists acc. by repeat split.
  - cbn [fold_left]. unfold z.extend at 2, z.spread. cbn [z.shape z._def z.description fold_left fst snd].
    destruct (IH d (z.set_prop (Action.name a)
                      (z.describe (ActionSchema.description (Action.schema a))
                         (z.nullable (ActionSchema.schema (Action.schema a)))) acc))
      as (sh & Hfold & Hkeys & Hassoc).
    + rewrite keys_set_prop. case_bool_decide; [done|].
      apply NoDup_app. split; [done|]. split; [|apply NoDup_singleton].
      intros k Hin Hk. apply list_elem_of_singleton in Hk as ->. done.
    + exists sh. split; [exact Hfold|]. split; [exact Hkeys|].
      intros k. rewrite Hassoc, assoc_set_prop.
      cbn [map]. rewrite reverse_cons, assoc_app.
      destruct (assoc k (reverse (map action_field actions))); [reflexivity|].
      unfold action_field at 1. simpl. by destruct (String.eqb k (Action.name a)).
Qed.

Lemma reverse_dynamic_fields (actions : list Action.t) :
  reverse (map dynamic_field actions)
  = map (fun kv => (kv.1, z.optional kv.2)) (reverse (map action_field actions)).
Proof.
  induction actions as [|a actions IH]; [reflexivity|].
  cbn [map]. by rewrite !reverse_cons, IH, map_app.
Qed.

Lemma keys_reverse_dynamic_fields (actions : list Action.t) :
  map fst (reverse (map dynamic_field actions)) = reverse (map Action.name actions).
Proof.
  induction actions as [|a actions IH]; [reflexivity|].
  cbn [map]. by rewrite !reverse_cons, map_app, IH.
Qed.

Lemma keys_reverse_action_fields (actions : list Action.t) :
  map fst (reverse (map action_field actions)) = reverse (map Action.name actions).
Proof.
  induction actions as [|a actions IH]; [reflexivity|].
  cbn [map]. by rewrite !reverse_cons, map_app, IH.
Qed.

(** Whatever the names of the actions other than [__proto__], the combined
    schema has one field per name.  Where several actions bear one name, the
    field is that of the last of them in the list: it replaces the earlier
    ones. *)
Theorem dynamic_schema_last_wins (actions : list Action.t) :
  z.proto_key ∉ map Action.name actions ->
  let combined := buildDynamicActionSchema actions in
  NoDup (map fst (z.shape combined))
  /\ (forall k, k ∈ map fst (z.shape combined) <-> k ∈ map Action.name actions)
  /\ (forall k, assoc k (z.shape combined) = assoc k (reverse (map dynamic_field actions))).
Proof.
  intros Hfree combined. subst combined. unfold buildDynamicActionSchema, z.object.
  destruct (extend_any actions None [] (NoDup_nil_2 (A:=string))) as (sh & -> & Hkeys & Hassoc).
  unfold z.partial, z.shape. cbn [z._def z.description].
  assert (Hnames : forall k, k ∈ map fst sh -> k ∈ map Action.name actions).
  { intros k Hk. apply assoc_key in Hk. rewrite Hassoc in Hk.
    destruct (assoc k (reverse (map action_field actions))) as [v|] eqn:Hv;
      [|by destruct Hk].
    assert (Hin : k ∈ map fst (reverse (map action_field actions)))
      by (apply assoc_key; by rewrite Hv).
    rewrite keys_reverse_action_fields in Hin. exact (proj1 (elem_of_reverse _ _) Hin). }
  rewrite keep_all_but_proto_key by (intros Hk; by apply Hfree, Hnames).
  assert (Hlookup : forall k, assoc k (map (fun kv => (kv.1, z.optional kv.2)) sh)
                              = assoc k (reverse (map dynamic_field actions))).
  { intros k. rewrite assoc_map_value, Hassoc, reverse_dynamic_fields, assoc_map_value.
    by destruct (assoc k (reverse (map action_field actions))). }
  assert (Hsame : map fst (map (fun kv : string * z.ZodType => (kv.1, z.optional kv.2)) sh)
                  = map fst sh) by (by rewrite map_map).
  split; [by rewrite Hsame|]. split; [|exact Hlookup].
  intros k. rewrite <- assoc_key, Hlookup, assoc_key, keys_reverse_dynamic_fields.
  apply elem_of_reverse.
Qed.

Lemma dynamic_schema_last_wins_witness :
  let actions := [Examples.click; Examples.back; Examples.click_again] in
  let combined := buildDynamicActionSchema actions in
  NoDup (map fst (z.shape combined))
  /\ (forall k, k ∈ map fst (z.shape combined)
                <-> k ∈ ["click_element"; "go_back"; "click_element"])
  /\ assoc "click_element" (z.shape combined) = Some (dynamic_field Examples.click_again).2.
Proof.
  intros actions combined.
  pose proof (dynamic_schema_last_wins actions) as Hlast.
  destruct Hlast as (Hkeys & Hnames & Hlookup).
  - apply (bool_decide_unpack _). vm_compute. exact I.
  - split; [exact Hkeys|]. split; [exact Hnames|]. exact (Hlookup "click_element").
Defined.

(** ** The tasks of the validator prompt *)

Lemma tasks_after_follow_ups (more : list string) :
  forall p : ValidatorPrompt.t,
    ValidatorPrompt.tasks (fold_left ValidatorPrompt.addFollowUpTask more p)
    = ValidatorPrompt.tasks p ++ more.
Proof.
  induction more as [|x more IH]; intros p; simpl.
  - by rewrite app_nil_r.
  - rewrite IH. simpl. by rewrite <- app_assoc.
Qed.

Lemma removelast_last (l : list string) (x : string) :
  last l = Some x -> l = removelast l ++ [x].
Proof.
  induction l as [|y l IH]; [discriminate|].
  destruct l as [|y' l]; [by intros [= ->]|].
  intros Hlast. change (y :: y' :: l = y :: (removelast (y' :: l) ++ [x])).
  f_equal. by apply IH.
Qed.

Lemma tasksToValidate_several (p : ValidatorPrompt.t) (first second : string)
    (others : list string) :
  ValidatorPrompt.tasks p = first :: second :: others ->
  ValidatorPrompt.tasksToValidate p =
    newline +:+ default "undefined" (last (ValidatorPrompt.tasks p)) +:+ newline +:+ newline
    +:+ ValidatorPrompt.follow_up_notice +:+ newline +:+ newline +:+ "Previous tasks:"
    +:+ newline
    +:+ join newline (imap ValidatorPrompt.numbered (removelast (ValidatorPrompt.tasks p)))
    +:+ newline.
Proof. intros Htasks. unfold ValidatorPrompt.tasksToValidate. by rewrite Htasks. Qed.

(** A validator prompt that was given a task and then any number of follow-up
    tasks keeps them all, in order.  With the one task it prints that task as
    it is.  With follow-ups it prints the latest task first and then every
    earlier task, numbered from 1 in the order they were given; no task is
    left out. *)
Theorem validator_prompt_tasks (task : string) (more : list string) :
  let p := fold_left ValidatorPrompt.addFollowUpTask more (ValidatorPrompt.new task) in
  ValidatorPrompt.tasks p = task :: more
  /\ (more = [] -> ValidatorPrompt.tasksToValidate p = task)
  /\ (forall latest : string, last more = Some latest ->
      exists rest : string,
        ValidatorPrompt.tasksToValidate p = newline +:+ latest +:+ newline +:+ rest)
  /\ (forall (i : nat) (x : string),
        (task :: more) !! i = Some x -> (i < length more)%nat ->
        mentions (ValidatorPrompt.tasksToValidate p) (ValidatorPrompt.numbered i x))
  /\ (forall x : string, x ∈ task :: more ->
      mentions (ValidatorPrompt.tasksToValidate p) x).
Proof.
  intros p.
  assert (Htasks : ValidatorPrompt.tasks p = task :: more).
  { subst p. by rewrite tasks_after_follow_ups. }
  split; [exact Htasks|].
  split; [intros ->; unfold ValidatorPrompt.tasksToValidate; by rewrite Htasks|].
  destruct more as [|second others].
  { split; [discriminate|]. split; [simpl; lia|].
    intros x Hin. apply list_elem_of_singleton in Hin as ->.
    unfold ValidatorPrompt.tasksToValidate. rewrite Htasks. apply mentions_refl. }
  rewrite (tasksToValidate_several p task second others Htasks), Htasks.
  destruct (last (task :: second :: others)) as [latest|] eqn:Hlast;
    [|rewrite !last_cons in Hlast; by destruct (last others)].
  pose proof (removelast_last _ _ Hlast) as Hsplit.
  assert (Hlen : length (removelast (task :: second :: others))
                 = length (second :: others)).
  { apply (f_equal length) in Hsplit. rewrite length_app in Hsplit.
    simpl in *. lia. }
  assert (Hnumbered : forall (i : nat) (x : string),
             (task :: second :: others) !! i = Some x ->
             (i < length (second :: others))%nat ->
             ValidatorPrompt.numbered i x
             ∈ imap ValidatorPrompt.numbered (removelast (task :: second :: others))).
  { intros i x Hi Hlt. apply list_elem_of_lookup. exists i.
    rewrite list_lookup_imap.
    rewrite Hsplit, lookup_app_l in Hi by lia. by rewrite Hi. }
  split; [|split].
  - intros latest' Hlatest. rewrite last_cons, Hlatest in Hlast.
    injection Hlast as <-. simpl. by eexists.
  - intros i x Hi Hlt. do 9 apply mentions_app_r. apply mentions_app_l.
    apply mentions_join. by apply Hnumbered.
  - intros x Hin. rewrite Hsplit in Hin. apply elem_of_app in Hin as [Hin|Hin].
    + apply list_elem_of_lookup in Hin as [i Hi].
      assert (Hlt : (i < length (second :: others))%nat)
        by (rewrite <- Hlen; by apply lookup_lt_Some in Hi).
      assert (Hi' : (task :: second :: others) !! i = Some x)
        by (rewrite Hsplit, lookup_app_l by (rewrite Hlen; exact Hlt); exact Hi).
      do 9 apply mentions_app_r. apply mentions_app_l.
      destruct (mentions_join newline _ _ (Hnumbered i x Hi' Hlt)) as (pre & post & ->).
      unfold ValidatorPrompt.numbered.
      apply mentions_app_r, mentions_app_l, mentions_app_r, mentions_app_r.
      apply mentions_refl.
    + apply list_elem_of_singleton in Hin as ->.
      apply mentions_app_r, mentions_app_l. simpl. apply mentions_refl.
Qed.

Lemma validator_prompt_tasks_witness :
  let p := fold_left ValidatorPrompt.addFollowUpTask ["and mine too"; "then log out"]
             (ValidatorPrompt.new "Find the price") in
  ValidatorPrompt.tasks p = ["Find the price"; "and mine too"; "then log out"]
  /\ (exists rest : string,
        ValidatorPrompt.tasksToValidate p
        = newline +:+ "then log out" +:+ newline +:+ rest)
  /\ mentions (ValidatorPrompt.tasksToValidate p) "1. Find the price"
  /\ mentions (ValidatorPrompt.tasksToValidate p) "2. and mine too".
Proof.
  intros p.
  pose proof (validator_prompt_tasks "Find the price" ["and mine too"; "then log out"])
    as (Htasks & _ & Hlatest & Hnumbered & _).
  split; [exact Htasks|]. split; [exact (Hlatest _ eq_refl)|]. split.
  - apply (Hnumbered 0%nat "Find the price" eq_refl). simpl. lia.
  - apply (Hnumbered 1%nat "and mine too" eq_refl). simpl. lia.
Defined.

Lemma registry_protocol_witness :
  bracketed (goToUrl Demo.healthy (VObj [("url", VStr "https://example.com")]) []).2.
Proof.
  apply (registry_protocol Demo.healthy NewTab.schemas 2
           (new_Action (goToUrl Demo.healthy) Examples.go_back_schema false)
           eq_refl ltac:(lia) ltac:(lia)
           (VObj [("url", VStr "https://example.com")]) []
           (new_ActionResult
              [extractedContent_ (VStr "Navigated to https://example.com (in background)");
               includeInMemory_ true])).
  reflexivity.
Defined.
